(** * Record Gateway: the data-access layer of the patient-management app

    A shallow embedding of the gateway functions (getPatients ...
    getFileUrl) that wrap the hosted backend client.  The functions are
    written as programs of a small free monad over the client's remote
    calls, the runtime clock and the diagnostic console; [run] executes
    such a program against any environment, and [Reference] is an
    executable model of the backend (tables, object storage, injected
    failures) against which the end-to-end statements are made. *)

From Stdlib Require Import ZArith DecimalString OrdersEx.
From stdpp Require Import gmap strings list fin_maps sorting.

#[local] Set Warnings "-register-all".
#[local] Open Scope Z_scope.

(** ** Run-time values

    The rows, payloads and results the functions handle are plain
    JavaScript values: the type annotations of the source are erased at
    run time.  Numbers are the integers the code meets (sizes, counters,
    clock readings, the expiry). *)

Inductive Value : Type :=
| VUndef
| VNull
| VBool (b : bool)
| VNum (n : Z)
| VStr (s : string)
| VArr (l : list Value)
| VObj (o : gmap string Value).

Abbreviation Row := (gmap string Value).

(** The error object of a failed remote call; the code only tests it for
    presence and hands it to the console. *)
Record Error : Type := mkError { message : string }.

(** What every awaited client call resolves to: [{ data, error }]. *)
Record Response : Type := mkResponse { data : Value; error : option Error }.

(** The browser [File] handed to uploadPatientFile. *)
Record File : Type := mkFile {
  file_name : string;
  file_type : string;
  file_content : list Byte.byte
}.

Definition file_size (f : File) : Z := Z.of_nat (length (file_content f)).

Inductive Exn : Type :=
| TypeError (msg : string).

(** ** JavaScript expression forms used by the source *)

Definition truthy (v : Value) : bool :=
  match v with
  | VUndef | VNull => false
  | VBool b => b
  | VNum n => negb (Z.eqb n 0)
  | VStr s => negb (String.eqb s "")
  | VArr _ | VObj _ => true
  end.

(** [a || b] *)
Definition js_or (a b : Value) : Value := if truthy a then a else b.

Definition nullish (v : Value) : bool :=
  match v with
  | VUndef | VNull => true
  | _ => false
  end.

(** [String(n)] for an integer [n], as a template literal renders it. *)
Definition number_to_string (n : Z) : string :=
  NilZero.string_of_int (Z.to_int n).

(** Own enumerable properties copied by [{ ...v }]: the fields of an
    object, the elements of an array and the characters of a string
    under their indices, nothing for the other values. *)
Definition spread (v : Value) : Row :=
  match v with
  | VObj o => o
  | VArr l => list_to_map (imap (λ i x, (number_to_string (Z.of_nat i), x)) l)
  | VStr s =>
      list_to_map (imap (λ i c, (number_to_string (Z.of_nat i), VStr (String c "")))
                        (String.list_ascii_of_string s))
  | _ => ∅
  end.

(** *** [Date.prototype.toISOString] *)

Fixpoint digits (width : nat) (n : Z) (acc : string) : string :=
  match width with
  | O => acc
  | S w => digits w (n / 10) (String (Ascii.ascii_of_nat (48 + Z.to_nat (n mod 10))) acc)
  end.

Definition pad (width : nat) (n : Z) : string := digits width n "".

(** Year, month and day of the proleptic Gregorian calendar for a day
    count since 1970-01-01. *)
Definition civil_from_days (days : Z) : Z * Z * Z :=
  let z := days + 719468 in
  let era := z / 146097 in
  let doe := z - era * 146097 in
  let yoe := (doe - doe / 1460 + doe / 36524 - doe / 146096) / 365 in
  let doy := doe - (365 * yoe + yoe / 4 - yoe / 100) in
  let mp := (5 * doy + 2) / 153 in
  let d := doy - (153 * mp + 2) / 5 + 1 in
  let m := if Z.ltb mp 10 then mp + 3 else mp - 9 in
  let y := yoe + era * 400 in
  (if Z.leb m 2 then y + 1 else y, m, d).

Definition toISOString (ms : Z) : string :=
  let '(y, m, d) := civil_from_days (ms / 86400000) in
  let r := ms mod 86400000 in
  let year :=
    if (Z.leb 0 y) && (Z.leb y 9999) then pad 4 y
    else (if Z.ltb y 0 then "-" else "+") +:+ pad 6 (Z.abs y) in
  year +:+ "-" +:+ pad 2 m +:+ "-" +:+ pad 2 d +:+ "T"
   +:+ pad 2 (r / 3600000) +:+ ":" +:+ pad 2 (r / 60000 mod 60) +:+ ":"
   +:+ pad 2 (r / 1000 mod 60) +:+ "." +:+ pad 3 (r mod 1000) +:+ "Z".

(** ** The client's request language *)

Module Supabase.

(** One item of a [select(...)] column list: ["*"], a column name, or
    an embedded relation [rel!inner(cols)]. *)
Inductive SelectItem : Type :=
| AllColumns
| Column (c : string)
| InnerJoin (rel : string) (cols : list string).

Inductive Action : Type :=
| Select (cols : list SelectItem)
| Insert (rows : list Value)
| Update (payload : Value)
| Delete.

(** A query as the builder chain leaves it when it is awaited. *)
Record Query : Type := mkQuery {
  table : string;
  action : Action;
  filters : list (string * string);
  ordering : option (string * bool);
  returning : bool;
  single_row : bool
}.

Definition start (t : string) (a : Action) : Query :=
  {| table := t; action := a; filters := []; ordering := None;
     returning := false; single_row := false |}.

(** [.from(t)] *)
Definition from (t : string) : string := t.
(** [.select(cols)] on a table *)
Definition select (cols : list SelectItem) (t : string) : Query := start t (Select cols).
(** [.insert(rows)] *)
Definition insert (rows : list Value) (t : string) : Query := start t (Insert rows).
(** [.update(payload)] *)
Definition update (payload : Value) (t : string) : Query := start t (Update payload).
(** [.delete()] *)
Definition delete (t : string) : Query := start t Delete.
(** [.eq(column, value)] *)
Definition eq (c v : string) (q : Query) : Query :=
  {| table := table q; action := action q; filters := filters q ++ [(c, v)];
     ordering := ordering q; returning := returning q; single_row := single_row q |}.
(** [.order(column, { ascending })] *)
Definition order (c : string) (ascending : bool) (q : Query) : Query :=
  {| table := table q; action := action q; filters := filters q;
     ordering := Some (c, ascending); returning := returning q; single_row := single_row q |}.
(** [.select()] after a mutation *)
Definition select_ (q : Query) : Query :=
  {| table := table q; action := action q; filters := filters q;
     ordering := ordering q; returning := true; single_row := single_row q |}.
(** [.single()] *)
Definition single (q : Query) : Query :=
  {| table := table q; action := action q; filters := filters q;
     ordering := ordering q; returning := returning q; single_row := true |}.

Inductive Request : Type :=
| Rest (q : Query)
| Rpc (fn : string) (args : Value)
| StorageUpload (bucket key : string) (file : File)
| StorageRemove (bucket : string) (paths : list Value)
| StorageCreateSignedUrl (bucket path : string) (expiresIn : Z).

End Supabase.

Import Supabase (Request, Rest, Rpc, StorageUpload, StorageRemove,
  StorageCreateSignedUrl, AllColumns, Column, InnerJoin).

Notation "x |> f" := (f x) (at level 45, left associativity, only parsing).

(** ** Programs

    A gateway function is a tree of the effects it performs: awaited
    remote calls, clock readings and console output, ending in a return
    or an uncaught exception. *)

Inductive Prog (A : Type) : Type :=
| Ret (a : A)
| Throw (e : Exn)
| Await (r : Request) (k : Response → Prog A)
| DateNow (k : Z → Prog A)
| ConsoleError (label : string) (e : Error) (k : Prog A).

Arguments Ret {A} a.
Arguments Throw {A} e.
Arguments Await {A} r k.
Arguments DateNow {A} k.
Arguments ConsoleError {A} label e k.

Fixpoint bind {A B : Type} (p : Prog A) (f : A → Prog B) : Prog B :=
  match p with
  | Ret a => f a
  | Throw e => Throw e
  | Await r k => Await r (λ x, bind (k x) f)
  | DateNow k => DateNow (λ t, bind (k t) f)
  | ConsoleError l e k => ConsoleError l e (bind k f)
  end.

#[global] Instance Prog_ret : MRet Prog := λ A, @Ret A.
#[global] Instance Prog_bind : MBind Prog := λ A B f p, bind p f.

Definition await (r : Request) : Prog Response := Await r Ret.
Definition date_now : Prog Z := DateNow Ret.
Definition console_error (label : string) (e : Error) : Prog unit :=
  ConsoleError label e (Ret tt).

(** [v.p]: a property read; reading from null or undefined raises. *)
Definition member (v : Value) (p : string) : Prog Value :=
  match v with
  | VUndef | VNull => Throw (TypeError ("Cannot read properties of null or undefined (reading '" +:+ p +:+ "')"))
  | VObj o => Ret (default VUndef (o !! p))
  | _ => Ret VUndef
  end.

(** [v?.p] *)
Definition optional_member (v : Value) (p : string) : Value :=
  match v with
  | VObj o => default VUndef (o !! p)
  | _ => VUndef
  end.

Fixpoint for_each (f : Value → Prog Value) (l : list Value) : Prog (list Value) :=
  match l with
  | [] => Ret []
  | x :: l' => y ← f x; ys ← for_each f l'; Ret (y :: ys)
  end.

(** [v?.map(f)] *)
Definition optional_map (v : Value) (f : Value → Prog Value) : Prog Value :=
  match v with
  | VUndef | VNull => Ret VUndef
  | VArr l => ys ← for_each f l; Ret (VArr ys)
  | _ => Throw (TypeError "data.map is not a function")
  end.

(** ** The gateway functions *)

Definition getPatients : Prog Value :=
  r ← await (Rest (Supabase.from "patients" |> Supabase.select [AllColumns]
                   |> Supabase.order "created_at" false));
  match error r with
  | Some e => console_error "Error fetching patients:" e;; Ret (VArr [])
  | None => Ret (js_or (data r) (VArr []))
  end.

Definition getPatientById (id : string) : Prog Value :=
  r ← await (Rest (Supabase.from "patients" |> Supabase.select [AllColumns]
                   |> Supabase.eq "id" id |> Supabase.single));
  match error r with
  | Some e => console_error "Error fetching patient:" e;; Ret VNull
  | None => Ret (data r)
  end.

Definition createPatient (patient : Row) : Prog Value :=
  r ← await (Rest (Supabase.from "patients" |> Supabase.insert [VObj patient]
                   |> Supabase.select_ |> Supabase.single));
  match error r with
  | Some e => console_error "Error creating patient:" e;; Ret VNull
  | None => Ret (data r)
  end.

Definition updatePatient (id : string) (updates : Row) : Prog Value :=
  now ← date_now;
  r ← await (Rest (Supabase.from "patients"
                   |> Supabase.update (VObj (<["updated_at" := VStr (toISOString now)]> updates))
                   |> Supabase.eq "id" id |> Supabase.select_ |> Supabase.single));
  match error r with
  | Some e => console_error "Error updating patient:" e;; Ret VNull
  | None => Ret (data r)
  end.

Definition deletePatient (id : string) : Prog Value :=
  r ← await (Rest (Supabase.from "patients" |> Supabase.delete |> Supabase.eq "id" id));
  match error r with
  | Some e => console_error "Error deleting patient:" e;; Ret (VBool false)
  | None => Ret (VBool true)
  end.

Definition getMedicalHistory (patientId : string) : Prog Value :=
  r ← await (Rest (Supabase.from "medical_history" |> Supabase.select [AllColumns]
                   |> Supabase.eq "patient_id" patientId
                   |> Supabase.order "date" false));
  match error r with
  | Some e => console_error "Error fetching medical history:" e;; Ret (VArr [])
  | None => Ret (js_or (data r) (VArr []))
  end.

Definition addMedicalHistory (history : Row) : Prog Value :=
  r ← await (Rest (Supabase.from "medical_history" |> Supabase.insert [VObj history]
                   |> Supabase.select_ |> Supabase.single));
  match error r with
  | Some e => console_error "Error adding medical history:" e;; Ret VNull
  | None =>
      _ ← await (Rpc "increment_patient_treatments"
                     (VObj {[ "patient_id" := default VUndef (history !! "patient_id") ]}));
      Ret (data r)
  end.

(** The arrow function getAppointments maps over the fetched rows:
    [(apt) => ({ ...apt, patientName: apt.patients.name })]. *)
Definition with_patient_name (apt : Value) : Prog Value :=
  patients ← member apt "patients";
  name ← member patients "name";
  Ret (VObj (<["patientName" := name]> (spread apt))).

Definition getAppointments : Prog Value :=
  r ← await (Rest (Supabase.from "appointments"
                   |> Supabase.select [AllColumns; InnerJoin "patients" ["name"]]
                   |> Supabase.order "date" true));
  match error r with
  | Some e => console_error "Error fetching appointments:" e;; Ret (VArr [])
  | None =>
      mapped ← optional_map (data r) with_patient_name;
      Ret (js_or mapped (VArr []))
  end.

Definition createAppointment (appointment : Row) : Prog Value :=
  r ← await (Rest (Supabase.from "appointments" |> Supabase.insert [VObj appointment]
                   |> Supabase.select_ |> Supabase.single));
  match error r with
  | Some e => console_error "Error creating appointment:" e;; Ret VNull
  | None => Ret (data r)
  end.

Definition updateAppointment (id : string) (updates : Row) : Prog Value :=
  now ← date_now;
  r ← await (Rest (Supabase.from "appointments"
                   |> Supabase.update (VObj (<["updated_at" := VStr (toISOString now)]> updates))
                   |> Supabase.eq "id" id |> Supabase.select_ |> Supabase.single));
  match error r with
  | Some e => console_error "Error updating appointment:" e;; Ret VNull
  | None => Ret (data r)
  end.

Definition deleteAppointment (id : string) : Prog Value :=
  r ← await (Rest (Supabase.from "appointments" |> Supabase.delete |> Supabase.eq "id" id));
  match error r with
  | Some e => console_error "Error deleting appointment:" e;; Ret (VBool false)
  | None => Ret (VBool true)
  end.

Definition getPatientFiles (patientId : string) : Prog Value :=
  r ← await (Rest (Supabase.from "patient_files" |> Supabase.select [AllColumns]
                   |> Supabase.eq "patient_id" patientId
                   |> Supabase.order "upload_date" false));
  match error r with
  | Some e => console_error "Error fetching patient files:" e;; Ret (VArr [])
  | None => Ret (js_or (data r) (VArr []))
  end.

(** The storage key of an upload: [`${patientId}/${Date.now()}-${file.name}`]. *)
Definition fileName (patientId : string) (now : Z) (file : File) : string :=
  patientId +:+ "/" +:+ number_to_string now +:+ "-" +:+ file_name file.

(** The metadata object saved after an upload. *)
Definition fileData (patientId : string) (file : File) (path : Value) : Row :=
  <["patient_id" := VStr patientId]>
  (<["name" := VStr (file_name file)]>
  (<["type" := VStr (file_type file)]>
  (<["size" := VNum (file_size file)]>
  (<["storage_path" := path]> ∅)))).

Definition uploadPatientFile (patientId : string) (file : File) : Prog Value :=
  now ← date_now;
  up ← await (StorageUpload "patient-files" (fileName patientId now file) file);
  match error up with
  | Some e => console_error "Error uploading file:" e;; Ret VNull
  | None =>
      path ← member (data up) "path";
      r ← await (Rest (Supabase.from "patient_files"
                       |> Supabase.insert [VObj (fileData patientId file path)]
                       |> Supabase.select_ |> Supabase.single));
      match error r with
      | Some e => console_error "Error saving file metadata:" e;; Ret VNull
      | None => Ret (data r)
      end
  end.

Definition deletePatientFile (fileId : string) : Prog Value :=
  fetched ← await (Rest (Supabase.from "patient_files"
                         |> Supabase.select [Column "storage_path"]
                         |> Supabase.eq "id" fileId |> Supabase.single));
  match error fetched with
  | Some e => console_error "Error fetching file info:" e;; Ret (VBool false)
  | None =>
      storage_path ← member (data fetched) "storage_path";
      removed ← await (StorageRemove "patient-files" [storage_path]);
      match error removed with
      | Some e => console_error "Error deleting file from storage:" e
      | None => Ret tt
      end;;
      r ← await (Rest (Supabase.from "patient_files" |> Supabase.delete
                       |> Supabase.eq "id" fileId));
      match error r with
      | Some e => console_error "Error deleting file metadata:" e;; Ret (VBool false)
      | None => Ret (VBool true)
      end
  end.

Definition getFileUrl (storagePath : string) : Prog Value :=
  r ← await (StorageCreateSignedUrl "patient-files" storagePath 3600);
  Ret (js_or (optional_member (data r) "signedUrl") VNull).

(** The legacy exports kept for compatibility: empty mock data and
    no-op savers. *)
Definition mockPatients : list Value := [].
Definition mockAppointments : list Value := [].
Definition savePatients : Prog Value := Ret VUndef.
Definition saveAppointments : Prog Value := Ret VUndef.

(** ** Running a program *)

Inductive Event : Type :=
| Called (r : Request) (res : Response)
| Logged (label : string) (e : Error)
| Clock (t : Z).

Inductive Outcome (A : Type) : Type :=
| Returned (a : A)
| Thrown (e : Exn).

Arguments Returned {A} a.
Arguments Thrown {A} e.

(** An environment answers remote calls and clock readings, threading a
    state of its own. *)
Record Env (S : Type) : Type := mkEnv {
  remote : Request → S → Response * S;
  clock_read : S → Z * S
}.

Arguments remote {S} _ _ _.
Arguments clock_read {S} _ _.

Record Run (S A : Type) : Type := mkRun {
  outcome : Outcome A;
  final : S;
  trace : list Event
}.

Arguments mkRun {S A} _ _ _.
Arguments outcome {S A} _.
Arguments final {S A} _.
Arguments trace {S A} _.

Definition observe {S A : Type} (ev : Event) (r : Run S A) : Run S A :=
  mkRun (outcome r) (final r) (ev :: trace r).

Fixpoint run {S A : Type} (env : Env S) (p : Prog A) (s : S) : Run S A :=
  match p with
  | Ret a => mkRun (Returned a) s []
  | Throw e => mkRun (Thrown e) s []
  | Await r k =>
      let '(res, s') := remote env r s in
      observe (Called r res) (run env (k res) s')
  | DateNow k =>
      let '(t, s') := clock_read env s in
      observe (Clock t) (run env (k t) s')
  | ConsoleError l e k => observe (Logged l e) (run env k s)
  end.

(** ** A reference backend

    An executable model of the hosted service the client talks to: the
    four collections as lists of rows, the object-storage buckets, a
    clock, and a plan of injected failures (transport errors, rejected
    writes) consumed one entry per remote call.  Its query semantics is
    the one the spec relies on: equality filters, ordering by a column,
    single-row projection, and the appointments-to-patients join. *)

Module Reference.

Record World : Type := mkWorld {
  tables : gmap string (list Row);
  buckets : gmap string (gmap string File);
  faults : list (option Error);
  clock : Z;
  serial : nat
}.

Definition set_tables (ts : gmap string (list Row)) (w : World) : World :=
  {| tables := ts; buckets := buckets w; faults := faults w;
     clock := clock w; serial := serial w |}.
Definition set_buckets (bs : gmap string (gmap string File)) (w : World) : World :=
  {| tables := tables w; buckets := bs; faults := faults w;
     clock := clock w; serial := serial w |}.
Definition set_faults (fs : list (option Error)) (w : World) : World :=
  {| tables := tables w; buckets := buckets w; faults := fs;
     clock := clock w; serial := serial w |}.
Definition bump (w : World) : World :=
  {| tables := tables w; buckets := buckets w; faults := faults w;
     clock := clock w; serial := S (serial w) |}.

Definition ok (v : Value) : Response := {| data := v; error := None |}.
Definition fail (msg : string) : Response :=
  {| data := VNull; error := Some (mkError msg) |}.

(** *** Columns, filters and ordering *)

Definition column (c : string) (r : Row) : Value := default VNull (r !! c).

Definition value_is_string (v : Value) (s : string) : bool :=
  match v with
  | VStr s' => String.eqb s' s
  | _ => false
  end.

Definition matches (fs : list (string * string)) (r : Row) : bool :=
  forallb (λ f, value_is_string (column f.1 r) f.2) fs.

(** Sort keys: values of one kind among themselves, absent values
    last (so first in a descending listing). *)
Definition rank (v : Value) : nat :=
  match v with
  | VBool _ => 0
  | VNum _ => 1
  | VStr _ => 2
  | VArr _ | VObj _ => 3
  | VUndef | VNull => 4
  end.

Definition value_leb (a b : Value) : bool :=
  match a, b with
  | VBool x, VBool y => implb x y
  | VNum x, VNum y => Z.leb x y
  | VStr x, VStr y =>
      match String_as_OT.compare x y with
      | Gt => false
      | _ => true
      end
  | _, _ => Nat.leb (rank a) (rank b)
  end.

Definition row_le (c : string) : relation Row :=
  λ r1 r2, value_leb (column c r1) (column c r2) = true.

Definition row_ge (c : string) : relation Row := flip (row_le c).

#[global] Instance row_le_dec c r1 r2 : Decision (row_le c r1 r2).
Proof. unfold row_le. apply _. Defined.

#[global] Instance row_ge_dec c r1 r2 : Decision (row_ge c r1 r2).
Proof. unfold row_ge, flip. apply _. Defined.

(** Modelled from the spec: the ordering primitive of the remote data
    backend, a hosted service that is not part of the sources ("ordered
    by a timestamp field", descending or ascending). *)
Definition sort_rows (o : option (string * bool)) (rows : list Row) : list Row :=
  match o with
  | None => rows
  | Some (c, true) => merge_sort (row_le c) rows
  | Some (c, false) => merge_sort (row_ge c) rows
  end.

(** *** Reading *)

(** The row an embedded relation resolves to: the row of [rel] whose
    [id] is this row's [patient_id]. *)
Definition referenced (w : World) (rel : string) (r : Row) : option Row :=
  match column "patient_id" r with
  | VStr k =>
      rows ← tables w !! rel;
      List.find (λ p, value_is_string (column "id" p) k) rows
  | _ => None
  end.

Definition visible (w : World) (cols : list Supabase.SelectItem) (r : Row) : bool :=
  forallb (λ it, match it with
                 | InnerJoin rel _ => bool_decide (is_Some (referenced w rel r))
                 | _ => true
                 end) cols.

Definition embed (cs : list string) (p : Row) : Row :=
  list_to_map ((λ c, (c, column c p)) <$> cs).

Definition project_item (w : World) (r : Row) (acc : Row) (it : Supabase.SelectItem) : Row :=
  match it with
  | AllColumns => acc ∪ r
  | Column c => <[c := column c r]> acc
  | InnerJoin rel cs =>
      <[rel := match referenced w rel r with
               | Some p => VObj (embed cs p)
               | None => VNull
               end]> acc
  end.

Definition project (w : World) (cols : list Supabase.SelectItem) (r : Row) : Row :=
  foldl (project_item w r) ∅ cols.

(** Modelled from the spec: a read of the remote data backend
    ("filter-by-equality, ordering, [...] and a relational join
    (appointments to patients) for name lookup"): the rows that pass the
    filters and the inner joins, in the requested order, projected onto
    the requested columns. *)
Definition select_rows (w : World) (q : Supabase.Query)
    (cols : list Supabase.SelectItem) (rows : list Row) : list Row :=
  project w cols <$>
    sort_rows (Supabase.ordering q)
      (List.filter (λ r, matches (Supabase.filters q) r && visible w cols r) rows).

(** The body of an answer that carries rows: [.single()] wants exactly
    one. *)
Definition rows_response (single : bool) (rows : list Row) : Response :=
  if single then
    match rows with
    | [r] => ok (VObj r)
    | _ => fail "PGRST116: the result contains 0 or more than 1 rows"
    end
  else ok (VArr (VObj <$> rows)).

(** *** Writing *)

Definition is_undefined (v : Value) : bool :=
  match v with
  | VUndef => true
  | _ => false
  end.

(** The fields of a payload that survive JSON serialisation. *)
Definition json_object (o : Row) : Row :=
  omap (λ v, if is_undefined v then None else Some v) o.

(** Modelled from the spec: the column defaults of the schema, which is
    not part of the sources ("letting the backend assign
    id/created_at/updated_at"; a file row has id and upload_date). *)
Definition generated (t : string) (w : World) : Row :=
  let id := VStr ("id-" +:+ number_to_string (Z.of_nat (serial w))) in
  let ts := VStr (toISOString (clock w)) in
  if String.eqb t "patient_files"
  then <["id" := id]> (<["upload_date" := ts]> ∅)
  else <["id" := id]> (<["created_at" := ts]> (<["updated_at" := ts]> ∅)).

Definition append_row (t : string) (r : Row) (w : World) : World :=
  set_tables (<[t := default [] (tables w !! t) ++ [r]]> (tables w)) w.

Fixpoint store_rows (t : string) (payloads : list Value) (w : World)
    : option (list Row * World) :=
  match payloads with
  | [] => Some ([], w)
  | VObj o :: ps =>
      let r := json_object o ∪ generated t w in
      match store_rows t ps (append_row t r (bump w)) with
      | Some (rs, w') => Some (r :: rs, w')
      | None => None
      end
  | _ => None
  end.

(** A mutation whose answer is an error leaves the tables as they
    were. *)
Definition commit (res : Response) (w' w : World) : Response * World :=
  match error res with
  | Some _ => (res, w)
  | None => (res, w')
  end.

Definition answer (q : Supabase.Query) (rows : list Row) : Response :=
  if Supabase.returning q then rows_response (Supabase.single_row q) rows
  else ok VNull.

(** Modelled from the spec: the remote data backend, which is not part
    of the sources ("four logical collections accessed via
    query/insert/update/delete primitives supporting filter-by-equality,
    ordering, single-row projection, and a relational join"). *)
Definition rest (q : Supabase.Query) (w : World) : Response * World :=
  let t := Supabase.table q in
  match tables w !! t with
  | None => (fail "42P01: relation does not exist", w)
  | Some rows =>
      match Supabase.action q with
      | Supabase.Select cols =>
          (rows_response (Supabase.single_row q) (select_rows w q cols rows), w)
      | Supabase.Insert payloads =>
          match store_rows t payloads w with
          | Some (rs, w') => commit (answer q rs) w' w
          | None => (fail "PGRST102: payload is not an object", w)
          end
      | Supabase.Update (VObj o) =>
          let change r := if matches (Supabase.filters q) r then json_object o ∪ r else r in
          commit (answer q (change <$> List.filter (matches (Supabase.filters q)) rows))
                 (set_tables (<[t := change <$> rows]> (tables w)) w) w
      | Supabase.Update _ => (fail "PGRST102: payload is not an object", w)
      | Supabase.Delete =>
          commit (answer q (List.filter (matches (Supabase.filters q)) rows))
                 (set_tables (<[t := List.filter (λ r, negb (matches (Supabase.filters q) r)) rows]>
                                (tables w)) w) w
      end
  end.

(** Modelled from the spec: the remote procedure
    [increment_patient_treatments], whose definition is not part of
    the sources ("parameterized by patient id, performs the counter
    bump"). *)
Definition increment_patient_treatments (k : string) (r : Row) : Row :=
  if value_is_string (column "id" r) k
  then <["treatments" := match column "treatments" r with
                         | VNum n => VNum (n + 1)
                         | _ => VNum 1
                         end]> r
  else r.

Definition rpc (fn : string) (args : Value) (w : World) : Response * World :=
  if String.eqb fn "increment_patient_treatments" then
    match optional_member args "patient_id", tables w !! "patients" with
    | VStr k, Some rows =>
        (ok VNull,
         set_tables (<["patients" := increment_patient_treatments k <$> rows]> (tables w)) w)
    | _, _ => (fail "PGRST202: could not call the function", w)
    end
  else (fail "PGRST202: could not find the function", w).

(** *** Object storage *)

Definition remove_one (p : Value) (objs : gmap string File) : gmap string File :=
  match p with
  | VStr k => base.delete k objs
  | _ => objs
  end.

Definition removed_entry (objs : gmap string File) (p : Value) : option Value :=
  match p with
  | VStr k => if bool_decide (is_Some (objs !! k))
              then Some (VObj (<["name" := VStr k]> ∅)) else None
  | _ => None
  end.

Definition signed_url (b k : string) (expires_at : Z) : string :=
  "/storage/v1/object/sign/" +:+ b +:+ "/" +:+ k +:+ "?token=exp."
    +:+ number_to_string expires_at.

(** Modelled from the spec: the object storage bucket, which is not part
    of the sources ("supports upload-by-key, delete-by-key(s), and
    time-boxed signed-URL issuance"). *)
Definition storage (r : Request) (w : World) : Response * World :=
  match r with
  | StorageUpload b k f =>
      match buckets w !! b with
      | None => (fail "Bucket not found", w)
      | Some objs =>
          match objs !! k with
          | Some _ => (fail "The resource already exists", w)
          | None =>
              (ok (VObj (<["path" := VStr k]> (<["fullPath" := VStr (b +:+ "/" +:+ k)]> ∅))),
               set_buckets (<[b := <[k := f]> objs]> (buckets w)) w)
          end
      end
  | StorageRemove b paths =>
      match buckets w !! b with
      | None => (fail "Bucket not found", w)
      | Some objs =>
          (ok (VArr (omap (removed_entry objs) paths)),
           set_buckets (<[b := foldr remove_one objs paths]> (buckets w)) w)
      end
  | StorageCreateSignedUrl b k expiresIn =>
      match buckets w !! b with
      | None => (fail "Bucket not found", w)
      | Some objs =>
          match objs !! k with
          | None => (fail "Object not found", w)
          | Some _ =>
              (ok (VObj (<["signedUrl" := VStr (signed_url b k (clock w / 1000 + expiresIn))]> ∅)), w)
          end
      end
  | _ => (fail "not a storage request", w)
  end.

Definition perform (r : Request) (w : World) : Response * World :=
  match r with
  | Rest q => rest q w
  | Rpc fn args => rpc fn args w
  | _ => storage r w
  end.

(** One remote call: the next entry of the failure plan decides whether
    the call reaches the service. *)
Definition exec (r : Request) (w : World) : Response * World :=
  match faults w with
  | Some e :: fs => ({| data := VNull; error := Some e |}, set_faults fs w)
  | None :: fs => perform r (set_faults fs w)
  | [] => perform r w
  end.

Definition env : Env World :=
  {| remote := exec; clock_read := λ w, (clock w, w) |}.

(** The failure the plan holds for the next remote call, if any. *)
Definition next_fault (w : World) : option Error :=
  match faults w with
  | Some e :: _ => Some e
  | _ => None
  end.

(** The rows of a collection. *)
Definition rows_of (t : string) (w : World) : list Row :=
  default [] (tables w !! t).

End Reference.

(** ** Fixtures *)

Module Fixtures.
Import Reference.

Definition ana : Row :=
  <["id" := VStr "p1"]> (<["name" := VStr "Ana Ruiz"]> (<["cedula" := VStr "001"]>
  (<["treatments" := VNum 0]> (<["status" := VStr "Activo"]>
  (<["created_at" := VStr "2024-01-01T00:00:00.000Z"]> ∅))))).

Definition luis : Row :=
  <["id" := VStr "p2"]> (<["name" := VStr "Luis Mora"]> (<["cedula" := VStr "002"]>
  (<["treatments" := VNum 2]> (<["status" := VStr "Alta"]>
  (<["created_at" := VStr "2024-03-01T00:00:00.000Z"]> ∅))))).

Definition appointment (id patient date : string) : Row :=
  <["id" := VStr id]> (<["patient_id" := VStr patient]> (<["date" := VStr date]>
  (<["time" := VStr "10:00"]> (<["status" := VStr "pendiente"]> ∅)))).

Definition history_row (id patient date : string) : Row :=
  <["id" := VStr id]> (<["patient_id" := VStr patient]> (<["date" := VStr date]>
  (<["treatment" := VStr "masaje"]> ∅))).

Definition file_row (id patient path date : string) : Row :=
  <["id" := VStr id]> (<["patient_id" := VStr patient]> (<["name" := VStr "rx.png"]>
  (<["storage_path" := VStr path]> (<["upload_date" := VStr date]> ∅)))).

Definition rx : File := {| file_name := "rx.png"; file_type := "image/png"; file_content := [Byte.x89; Byte.x50; Byte.x4e; Byte.x47] |}.

Definition clinic (fs : list (option Error)) : World :=
  {| tables :=
       <["patients" := [ana; luis]]>
       (<["medical_history" := [history_row "h1" "p1" "2024-02-01"; history_row "h2" "p2" "2024-02-03";
                                history_row "h3" "p1" "2024-02-07"]]>
       (<["appointments" := [appointment "a1" "p1" "2024-05-03"; appointment "a2" "p2" "2024-05-01";
                             appointment "a3" "p1" "2024-05-02"]]>
       (<["patient_files" := [file_row "f1" "p1" "p1/1-rx.png" "2024-04-01T00:00:00.000Z";
                              file_row "f2" "p1" "p1/2-rx.png" "2024-04-02T00:00:00.000Z"]]> ∅)));
     buckets := <["patient-files" := <["p1/1-rx.png" := rx]> (<["p1/2-rx.png" := rx]> ∅)]> ∅;
     faults := fs;
     clock := 1700000000123;
     serial := 7 |}.

Definition boom : Error := mkError "network failure".

(** The clinic with one more appointment, booked for a patient that
    does not exist. *)
Definition clinic_with_stray : World :=
  set_tables (<["appointments" := [appointment "a1" "p1" "2024-05-03";
                                   appointment "a4" "p9" "2024-05-02";
                                   appointment "a2" "p2" "2024-05-01"]]>
                (tables (clinic []))) (clinic []).

(** An environment that answers every call with neither an error nor
    data, and a second one whose only answer is an array holding a row
    without a joined patient. *)
Definition mute : Env unit :=
  {| remote := λ _ _, ({| data := VNull; error := None |}, tt);
     clock_read := λ u, (5, u) |}.

Definition unjoined : Env unit :=
  {| remote := λ _ _, ({| data := VArr [VObj (appointment "a9" "p9" "2024-05-09")];
                          error := None |}, tt);
     clock_read := λ u, (5, u) |}.

End Fixtures.

(** ** The vocabulary of the statements *)

Import Reference.

(** *** Reading a trace *)

(** The remote call [req] was made and answered with error [e]. *)
Definition failed (t : list Event) (req : Request) (e : Error) : Prop :=
  ∃ res, In (Called req res) t ∧ error res = Some e.

(** The remote call [req] was made and answered without an error. *)
Definition succeeded (t : list Event) (req : Request) : Prop :=
  ∃ res, In (Called req res) t ∧ error res = None.

Definition logged (t : list Event) (e : Error) : Prop :=
  ∃ label, In (Logged label e) t.

Definition called (t : list Event) (req : Request) : Prop :=
  ∃ res, In (Called req res) t.

(** *** The list operations *)

Inductive ListOp : Type :=
| ListPatients
| ListAppointments
| ListMedicalHistory (patientId : string)
| ListPatientFiles (patientId : string).

Definition list_program (op : ListOp) : Prog Value :=
  match op with
  | ListPatients => getPatients
  | ListAppointments => getAppointments
  | ListMedicalHistory patientId => getMedicalHistory patientId
  | ListPatientFiles patientId => getPatientFiles patientId
  end.

(** The query each list operation awaits. *)
Definition list_query (op : ListOp) : Supabase.Query :=
  match op with
  | ListPatients =>
      Supabase.from "patients" |> Supabase.select [AllColumns]
      |> Supabase.order "created_at" false
  | ListAppointments =>
      Supabase.from "appointments"
      |> Supabase.select [AllColumns; InnerJoin "patients" ["name"]]
      |> Supabase.order "date" true
  | ListMedicalHistory patientId =>
      Supabase.from "medical_history" |> Supabase.select [AllColumns]
      |> Supabase.eq "patient_id" patientId |> Supabase.order "date" false
  | ListPatientFiles patientId =>
      Supabase.from "patient_files" |> Supabase.select [AllColumns]
      |> Supabase.eq "patient_id" patientId |> Supabase.order "upload_date" false
  end.

Definition list_label (op : ListOp) : string :=
  match op with
  | ListPatients => "Error fetching patients:"
  | ListAppointments => "Error fetching appointments:"
  | ListMedicalHistory _ => "Error fetching medical history:"
  | ListPatientFiles _ => "Error fetching patient files:"
  end.

(** *** The update operations *)

Inductive Updatable : Type :=
| UPatient
| UAppointment.

Definition update_program (c : Updatable) : string → Row → Prog Value :=
  match c with
  | UPatient => updatePatient
  | UAppointment => updateAppointment
  end.

Definition update_table (c : Updatable) : string :=
  match c with
  | UPatient => "patients"
  | UAppointment => "appointments"
  end.

Definition update_label (c : Updatable) : string :=
  match c with
  | UPatient => "Error updating patient:"
  | UAppointment => "Error updating appointment:"
  end.

(** [{ ...updates, updated_at: new Date().toISOString() }] *)
Definition stamped (updates : Row) (now : Z) : Row :=
  <["updated_at" := VStr (toISOString now)]> updates.

Definition update_query (t id : string) (payload : Row) : Supabase.Query :=
  Supabase.from t |> Supabase.update (VObj payload) |> Supabase.eq "id" id
  |> Supabase.select_ |> Supabase.single.

(** *** The other requests the functions make *)

Definition insert_query (t : string) (row : Row) : Supabase.Query :=
  Supabase.from t |> Supabase.insert [VObj row] |> Supabase.select_ |> Supabase.single.

(** The argument object of the counter call:
    [{ patient_id: history.patient_id }]. *)
Definition increment_args (history : Row) : Value :=
  VObj {[ "patient_id" := default VUndef (history !! "patient_id") ]}.

Definition fetch_file_query (fileId : string) : Supabase.Query :=
  Supabase.from "patient_files" |> Supabase.select [Column "storage_path"]
  |> Supabase.eq "id" fileId |> Supabase.single.

Definition delete_query (t id : string) : Supabase.Query :=
  Supabase.from t |> Supabase.delete |> Supabase.eq "id" id.

(** *** Listings and the appointments join *)

Definition list_columns (op : ListOp) : list Supabase.SelectItem :=
  match op with
  | ListAppointments => [AllColumns; InnerJoin "patients" ["name"]]
  | _ => [AllColumns]
  end.

(** A fetched appointment row carrying its joined patient, and the same
    row after the flattening step. *)
Definition flattened (apt x : Value) : Prop :=
  ∃ (a : Row) (pv : Value),
    apt = VObj a ∧ a !! "patients" = Some pv ∧ nullish pv = false
    ∧ x = VObj (<["patientName" := optional_member pv "name"]> a).

(** The flattening step on a row that carries its joined patient. *)
Definition named_row (r : Row) : Row :=
  <["patientName" := optional_member (default VUndef (r !! "patients")) "name"]> r.

Definition appointment_columns : list Supabase.SelectItem :=
  [AllColumns; InnerJoin "patients" ["name"]].

(** The appointments the service selects: those whose patient exists,
    by ascending date, each with its patient's name embedded. *)
Definition joined_appointments (w : World) (rows0 : list Row) : list Row :=
  project w appointment_columns <$>
    merge_sort (row_le "date")
      (List.filter (λ r, matches [] r && visible w appointment_columns r) rows0).

(** The order each listing declares, and the owner it filters by. *)
Definition declared_order (op : ListOp) : string * bool :=
  match op with
  | ListPatients => ("created_at", false)
  | ListAppointments => ("date", true)
  | ListMedicalHistory _ => ("date", false)
  | ListPatientFiles _ => ("upload_date", false)
  end.

Definition list_order (op : ListOp) : relation Row :=
  if (declared_order op).2 then row_le (declared_order op).1
  else row_ge (declared_order op).1.

Definition list_owner (op : ListOp) : option string :=
  match op with
  | ListMedicalHistory patientId | ListPatientFiles patientId => Some patientId
  | _ => None
  end.

(** *** The whole surface *)

Inductive Operation : Type :=
| GetPatients
| GetPatientById (id : string)
| CreatePatient (patient : Row)
| UpdatePatient (id : string) (updates : Row)
| DeletePatient (id : string)
| GetMedicalHistory (patientId : string)
| AddMedicalHistory (history : Row)
| GetAppointments
| CreateAppointment (appointment : Row)
| UpdateAppointment (id : string) (updates : Row)
| DeleteAppointment (id : string)
| GetPatientFiles (patientId : string)
| UploadPatientFile (patientId : string) (file : File)
| DeletePatientFile (fileId : string)
| GetFileUrl (storagePath : string).

Definition operation (op : Operation) : Prog Value :=
  match op with
  | GetPatients => getPatients
  | GetPatientById id => getPatientById id
  | CreatePatient patient => createPatient patient
  | UpdatePatient id updates => updatePatient id updates
  | DeletePatient id => deletePatient id
  | GetMedicalHistory patientId => getMedicalHistory patientId
  | AddMedicalHistory history => addMedicalHistory history
  | GetAppointments => getAppointments
  | CreateAppointment appointment => createAppointment appointment
  | UpdateAppointment id updates => updateAppointment id updates
  | DeleteAppointment id => deleteAppointment id
  | GetPatientFiles patientId => getPatientFiles patientId
  | UploadPatientFile patientId file => uploadPatientFile patientId file
  | DeletePatientFile fileId => deletePatientFile fileId
  | GetFileUrl storagePath => getFileUrl storagePath
  end.




(** *** Counting and classifying what a run did *)




(** Requests that only read: a select, or the issue of a signed URL. *)
Definition read_request (req : Request) : bool :=
  match req with
  | Rest q =>
      match Supabase.action q with
      | Supabase.Select _ => true
      | _ => false
      end
  | StorageCreateSignedUrl _ _ _ => true
  | _ => false
  end.

Definition read_operation (op : Operation) : bool :=
  match op with
  | GetPatients | GetPatientById _ | GetMedicalHistory _ | GetAppointments
  | GetPatientFiles _ | GetFileUrl _ => true
  | _ => false
  end.

(** The operations whose body reads a property of a fetched value
    without a guard. *)
Definition reads_unguarded (op : Operation) : bool :=
  match op with
  | GetAppointments | UploadPatientFile _ _ | DeletePatientFile _ => true
  | _ => false
  end.

(** A fetched appointment carries a joined patient: it is an object whose
    [patients] field is neither null nor undefined. *)
Definition joined (apt : Value) : bool :=
  match apt with
  | VObj a => negb (nullish (default VUndef (a !! "patients")))
  | _ => false
  end.

(** The answers on which the mapping step of getAppointments raises: a
    value that is not an array (and not null or undefined), or an array
    with an element that carries no joined patient. *)
Definition unflattenable (d : Value) : bool :=
  match d with
  | VUndef | VNull => false
  | VArr l => negb (forallb joined l)
  | _ => true
  end.

(** *** The delete operations *)

Definition delete_program (c : Updatable) : string → Prog Value :=
  match c with
  | UPatient => deletePatient
  | UAppointment => deleteAppointment
  end.

Definition delete_label (c : Updatable) : string :=
  match c with
  | UPatient => "Error deleting patient:"
  | UAppointment => "Error deleting appointment:"
  end.

(** *** The create operations *)

Definition create_program (c : Updatable) : Row → Prog Value :=
  match c with
  | UPatient => createPatient
  | UAppointment => createAppointment
  end.

Definition create_label (c : Updatable) : string :=
  match c with
  | UPatient => "Error creating patient:"
  | UAppointment => "Error creating appointment:"
  end.

Definition get_patient_query (id : string) : Supabase.Query :=
  Supabase.from "patients" |> Supabase.select [AllColumns]
  |> Supabase.eq "id" id |> Supabase.single.

(** An appointment as getAppointments lists it: with its patient
    embedded and the patient's name flattened onto it. *)
Definition listed_appointment (w : World) (r : Row) : Row :=
  named_row (project w appointment_columns r).

Definition has_patient (w : World) (r : Row) : bool :=
  bool_decide (is_Some (referenced w "patients" r)).

(** The rows of a listing's collection that the listing asks for. *)
Definition belongs (op : ListOp) (r : Row) : bool :=
  match list_owner op with
  | Some p => value_is_string (column "patient_id" r) p
  | None => true
  end.

(** The rows a listing selects from its collection, and each selected
    row as the listing returns it. *)
Definition selected (op : ListOp) (w : World) (r : Row) : bool :=
  match op with
  | ListAppointments => has_patient w r
  | _ => belongs op r
  end.

Definition listed (op : ListOp) (w : World) (r : Row) : Row :=
  match op with
  | ListAppointments => listed_appointment w r
  | _ => r
  end.

(** * Properties *)

Example toISOString_epoch : toISOString 0 = "1970-01-01T00:00:00.000Z"%string.
Proof. reflexivity. Qed.

Example toISOString_2023 : toISOString 1700000000123 = "2023-11-14T22:13:20.123Z"%string.
Proof. reflexivity. Qed.

Example toISOString_before_epoch : toISOString (-1) = "1969-12-31T23:59:59.999Z"%string.
Proof. reflexivity. Qed.

Example fileName_of_upload :
  fileName "p1" 1700000000123 Fixtures.rx = "p1/1700000000123-rx.png".
Proof. reflexivity. Qed.

Example js_or_empty_string : js_or (VStr "") VNull = VNull.
Proof. reflexivity. Qed.

Example getPatients_newest_first :
  outcome (run Reference.env getPatients (Fixtures.clinic [])) =
    Returned (VArr [VObj Fixtures.luis; VObj Fixtures.ana]).
Proof. reflexivity. Qed.

Example getPatientById_missing :
  run Reference.env (getPatientById "p9") (Fixtures.clinic []) =
    mkRun (Returned VNull) (Fixtures.clinic [])
      [Called (Rest (Supabase.from "patients" |> Supabase.select [AllColumns]
                     |> Supabase.eq "id" "p9" |> Supabase.single))
         (fail "PGRST116: the result contains 0 or more than 1 rows");
       Logged "Error fetching patient:"
         (mkError "PGRST116: the result contains 0 or more than 1 rows")].
Proof. reflexivity. Qed.

Example deletePatient_then_get :
  outcome (run Reference.env (deletePatient "p2";; getPatientById "p2") (Fixtures.clinic [])) =
    Returned VNull.
Proof. reflexivity. Qed.

Example addMedicalHistory_bumps_counter :
  column "treatments" <$>
    rows_of "patients"
      (final (run Reference.env
                (addMedicalHistory (<["patient_id" := VStr "p2"]> (<["date" := VStr "2024-06-01"]> ∅)))
                (Fixtures.clinic []))) = [VNum 0; VNum 3].
Proof. reflexivity. Qed.

(** ** Facts about [run] *)

Section Running.
Context {S : Type} (env : Env S).

(** Sequencing: the second program starts where the first one returned;
    an exception of the first one ends the run. *)
Lemma run_bind {A B : Type} (p : Prog A) (f : A → Prog B) (s : S) :
  run env (bind p f) s =
  match outcome (run env p s) with
  | Returned a =>
      let r := run env (f a) (final (run env p s)) in
      mkRun (outcome r) (final r) (trace (run env p s) ++ trace r)
  | Thrown e => mkRun (Thrown e) (final (run env p s)) (trace (run env p s))
  end.
Proof.
  revert s. induction p as [a|e|r k IH|k IH|l e k IH]; intros s; simpl.
  - by destruct (run env (f a) s).
  - done.
  - destruct (remote env r s) as [res s']. rewrite IH. unfold observe; simpl.
    by destruct (outcome (run env (k res) s')).
  - destruct (clock_read env s) as [t s']. rewrite IH. unfold observe; simpl.
    by destruct (outcome (run env (k t) s')).
  - rewrite IH. unfold observe; simpl. by destruct (outcome (run env k s)).
Qed.

(** A property read performs no effect. *)
Lemma run_member (v : Value) (p : string) (s : S) :
  final (run env (member v p) s) = s ∧ trace (run env (member v p) s) = [].
Proof. by destruct v. Qed.

End Running.

(** C5: when the remote call of a list operation (getPatients,
    getAppointments, getMedicalHistory, getPatientFiles) fails, the
    operation logs that error and returns the empty array; nothing is
    raised and nothing else is called. *)
Theorem list_failure_returns_empty {S : Type} (env : Env S) (s s' : S)
    (op : ListOp) (res : Response) (e : Error) :
  remote env (Rest (list_query op)) s = (res, s') →
  error res = Some e →
  run env (list_program op) s =
    mkRun (Returned (VArr [])) s'
      [Called (Rest (list_query op)) res; Logged (list_label op) e].
Proof.
  intros Hcall Herr.
  destruct op; simpl in *; rewrite Hcall; simpl; by rewrite Herr.
Qed.

Lemma list_failure_returns_empty_witness :
  run Reference.env getAppointments (Fixtures.clinic [Some Fixtures.boom]) =
    mkRun (Returned (VArr [])) (Fixtures.clinic [])
      [Called (Rest (list_query ListAppointments))
         {| data := VNull; error := Some Fixtures.boom |};
       Logged "Error fetching appointments:" Fixtures.boom].
Proof.
  apply (list_failure_returns_empty Reference.env (Fixtures.clinic [Some Fixtures.boom])
           (Fixtures.clinic []) ListAppointments
           {| data := VNull; error := Some Fixtures.boom |} Fixtures.boom);
    reflexivity.
Defined.

(** ** The signed URL *)

(** C8: getFileUrl makes one request, for a signed URL of the given
    storage path in the patient-files bucket valid for 3600 seconds; it
    returns the URL string of the answer, and null when the request
    fails.  Against the reference storage the result is the issued URL
    exactly when the request succeeds. *)
Theorem getFileUrl_one_hour_url {S : Type} (env : Env S) (s s' : S)
    (storagePath : string) (res : Response) :
  remote env (StorageCreateSignedUrl "patient-files" storagePath 3600) s = (res, s') →
  let r := run env (getFileUrl storagePath) s in
  trace r = [Called (StorageCreateSignedUrl "patient-files" storagePath 3600) res]
  ∧ final r = s'
  ∧ (∀ e, error res = Some e → data res = VNull → outcome r = Returned VNull)
  ∧ (∀ o url, error res = None → data res = VObj o →
       o !! "signedUrl" = Some (VStr url) → url ≠ "" →
       outcome r = Returned (VStr url))
  ∧ (∀ w, let a := (Reference.exec (StorageCreateSignedUrl "patient-files" storagePath 3600) w).1 in
          let r' := run Reference.env (getFileUrl storagePath) w in
          match error a with
          | Some _ => outcome r' = Returned VNull
          | None => ∃ url, optional_member (data a) "signedUrl" = VStr url
                           ∧ outcome r' = Returned (VStr url)
          end).
Proof.
  intros Hcall r. subst r. unfold getFileUrl. simpl. rewrite Hcall. simpl.
  repeat split.
  - intros e _ ->. reflexivity.
  - intros o url _ -> Hurl Hne. simpl. rewrite Hurl. simpl.
    unfold js_or. simpl. destruct url; [done|reflexivity].
  - intros w. unfold Reference.exec.
    destruct (Reference.faults w) as [|[e|] fs]; simpl; try reflexivity.
    + destruct (Reference.buckets w !! "patient-files") as [objs|]; simpl; [|reflexivity].
      destruct (objs !! storagePath); simpl; [|reflexivity].
      eexists. split; reflexivity.
    + destruct (Reference.buckets w !! "patient-files") as [objs|]; simpl; [|reflexivity].
      destruct (objs !! storagePath); simpl; [|reflexivity].
      eexists. split; reflexivity.
Qed.

Lemma getFileUrl_one_hour_url_witness :
  outcome (run Reference.env (getFileUrl "p1/1-rx.png") (Fixtures.clinic [])) =
    Returned (VStr "/storage/v1/object/sign/patient-files/p1/1-rx.png?token=exp.1700003600")
  ∧ outcome (run Reference.env (getFileUrl "p1/1-rx.png") (Fixtures.clinic [Some Fixtures.boom])) =
    Returned VNull.
Proof.
  split.
  - pose proof (getFileUrl_one_hour_url Reference.env (Fixtures.clinic [])
        (Fixtures.clinic []) "p1/1-rx.png"
        (Reference.ok (VObj (<["signedUrl" :=
           VStr "/storage/v1/object/sign/patient-files/p1/1-rx.png?token=exp.1700003600"]> ∅)))
        eq_refl) as (_ & _ & _ & Hok & _).
    apply (Hok _ _ eq_refl eq_refl eq_refl). discriminate.
  - pose proof (getFileUrl_one_hour_url Reference.env (Fixtures.clinic [Some Fixtures.boom])
        (Fixtures.clinic []) "p1/1-rx.png"
        {| data := VNull; error := Some Fixtures.boom |} eq_refl) as (_ & _ & Hfail & _).
    apply (Hfail Fixtures.boom eq_refl eq_refl).
Defined.

(** ** The update operations *)

Lemma update_query_fields (t id : string) (payload : Row) :
  update_query t id payload =
    {| Supabase.table := t; Supabase.action := Supabase.Update (VObj payload);
       Supabase.filters := [("id", id)]; Supabase.ordering := None;
       Supabase.returning := true; Supabase.single_row := true |}.
Proof. reflexivity. Qed.

(** What an update operation does, for any environment: one clock
    reading, one update request carrying the stamped payload, and the
    answer's row or null. *)
Lemma update_program_run {S : Type} (env : Env S) (c : Updatable) (s s1 s2 : S)
    (id : string) (updates : Row) (now : Z) (res : Response) :
  clock_read env s = (now, s1) →
  remote env (Rest (update_query (update_table c) id (stamped updates now))) s1 = (res, s2) →
  run env (update_program c id updates) s =
    mkRun (Returned (match error res with Some _ => VNull | None => data res end)) s2
      (Clock now
       :: Called (Rest (update_query (update_table c) id (stamped updates now))) res
       :: match error res with
          | Some e => [Logged (update_label c) e]
          | None => []
          end).
Proof.
  intros Hclock Hcall.
  destruct c; simpl in *; rewrite Hclock; simpl;
    unfold update_query, stamped in Hcall; simpl in Hcall; rewrite Hcall; simpl;
    by destruct (error res).
Qed.

(** C9: the payload an update operation sends carries the call-site
    timestamp under updated_at whatever the caller supplied there, and
    every other field of the caller's updates (id included) exactly as
    given. *)
Theorem update_payload_overrides_updated_at {S : Type} (env : Env S) (c : Updatable)
    (s : S) (id : string) (updates : Row) :
  ∃ now res payload rest,
    (clock_read env s).1 = now
    ∧ trace (run env (update_program c id updates) s) =
        Clock now :: Called (Rest (update_query (update_table c) id payload)) res :: rest
    ∧ payload !! "updated_at" = Some (VStr (toISOString now))
    ∧ ∀ f, f ≠ "updated_at" → payload !! f = updates !! f.
Proof.
  destruct (clock_read env s) as [now s1] eqn:Hclock.
  destruct (remote env (Rest (update_query (update_table c) id (stamped updates now))) s1)
    as [res s2] eqn:Hcall.
  exists now, res, (stamped updates now). eexists. repeat split.
  - by rewrite (update_program_run env c s s1 s2 id updates now res Hclock Hcall).
  - apply lookup_insert_eq.
  - intros f Hf. unfold stamped. by rewrite lookup_insert_ne.
Qed.

Lemma update_payload_overrides_updated_at_witness :
  ∃ now res payload rest,
    trace (run Reference.env
             (updatePatient "p1" (<["updated_at" := VStr "1999"]> (<["id" := VStr "p9"]> ∅)))
             (Fixtures.clinic [])) =
      Clock now :: Called (Rest (update_query "patients" "p1" payload)) res :: rest
    ∧ payload !! "updated_at" = Some (VStr "2023-11-14T22:13:20.123Z")
    ∧ payload !! "id" = Some (VStr "p9").
Proof.
  destruct (update_payload_overrides_updated_at Reference.env UPatient (Fixtures.clinic []) "p1"
              (<["updated_at" := VStr "1999"]> (<["id" := VStr "p9"]> ∅)))
    as (now & res & payload & rest & Hnow & Htrace & Hstamp & Hother).
  exists now, res, payload, rest. split; [exact Htrace|]. split.
  - rewrite Hstamp, <- Hnow. reflexivity.
  - rewrite Hother; [reflexivity|discriminate].
Defined.

(** ** Facts about the reference backend *)

Module ReferenceFacts.
Import Reference.

Lemma exec_fault r w e :
  next_fault w = Some e →
  exec r w = ({| data := VNull; error := Some e |}, set_faults (tail (faults w)) w).
Proof.
  unfold next_fault, exec. destruct (faults w) as [|[e'|] fs]; try done.
  by intros [= ->].
Qed.

Lemma exec_reaches r w :
  next_fault w = None →
  exec r w = perform r (set_faults (tail (faults w)) w).
Proof.
  unfold next_fault, exec. destruct (faults w) as [|[e'|] fs] eqn:Hf; try done.
  intros _. simpl. f_equal. destruct w; simpl in *. by subst.
Qed.

Lemma value_is_string_spec v s : value_is_string v s = true ↔ v = VStr s.
Proof.
  destruct v; simpl; try (split; [discriminate|congruence]).
  rewrite String.eqb_eq. split; congruence.
Qed.

Lemma column_is_string c r s :
  value_is_string (column c r) s = true ↔ r !! c = Some (VStr s).
Proof.
  rewrite value_is_string_spec. unfold column.
  destruct (r !! c) as [v|]; simpl; split; congruence.
Qed.

Lemma matches_one c v r : matches [(c, v)] r = true ↔ r !! c = Some (VStr v).
Proof. simpl. rewrite andb_true_r. apply column_is_string. Qed.

Lemma matches_one_false c v r : matches [(c, v)] r = false ↔ r !! c ≠ Some (VStr v).
Proof. rewrite <- matches_one. by destruct (matches [(c, v)] r). Qed.

(** Filtering a list in which exactly one row passes. *)
Lemma filter_only (f : Row → bool) (pre post : list Row) (x : Row) :
  Forall (λ r, f r = false) (pre ++ post) → f x = true →
  List.filter f (pre ++ x :: post) = [x].
Proof.
  rewrite Forall_app. intros [Hpre Hpost] Hx.
  rewrite List.filter_app. simpl. rewrite Hx.
  assert (Hnone : ∀ l, Forall (λ r, f r = false) l → List.filter f l = []).
  { induction 1 as [|y l Hy _ IH]; simpl; [done|]. by rewrite Hy. }
  by rewrite (Hnone pre Hpre), (Hnone post Hpost).
Qed.

Lemma change_only (f : Row → bool) (g : Row → Row) (pre post : list Row) (x : Row) :
  Forall (λ r, f r = false) (pre ++ post) → f x = true →
  (λ r, if f r then g r else r) <$> (pre ++ x :: post) = pre ++ g x :: post.
Proof.
  rewrite Forall_app. intros [Hpre Hpost] Hx.
  rewrite fmap_app, fmap_cons, Hx.
  assert (Hsame : ∀ l, Forall (λ r, f r = false) l →
            (λ r, if f r then g r else r) <$> l = l).
  { induction 1 as [|y l Hy _ IH]; [done|]. by rewrite fmap_cons, Hy, IH. }
  by rewrite (Hsame pre Hpre), (Hsame post Hpost).
Qed.

Lemma json_object_lookup (o : Row) f v :
  o !! f = Some v → v ≠ VUndef → json_object o !! f = Some v.
Proof.
  intros Hf Hv. unfold json_object. rewrite lookup_omap, Hf. simpl.
  by destruct v.
Qed.

Lemma json_object_lookup_None (o : Row) f :
  o !! f = None → json_object o !! f = None.
Proof. intros Hf. unfold json_object. by rewrite lookup_omap, Hf. Qed.

(** The update request of the gateway, answered by the service when
    exactly one row has the given id. *)
Lemma rest_update_one t id (payload : Row) w pre old post :
  tables w !! t = Some (pre ++ old :: post) →
  old !! "id" = Some (VStr id) →
  Forall (λ r, r !! "id" ≠ Some (VStr id)) (pre ++ post) →
  rest (update_query t id payload) w =
    (ok (VObj (json_object payload ∪ old)),
     set_tables (<[t := pre ++ (json_object payload ∪ old) :: post]> (tables w)) w).
Proof.
  intros Ht Hold Hrest. unfold rest. rewrite update_query_fields.
  cbn [Supabase.table Supabase.action Supabase.filters Supabase.returning
       Supabase.single_row]. rewrite Ht.
  assert (Hrest' : Forall (λ r, matches [("id", id)] r = false) (pre ++ post)).
  { eapply Forall_impl; [exact Hrest|]. intros r Hr. by apply matches_one_false. }
  assert (Hold' : matches [("id", id)] old = true) by by apply matches_one.
  rewrite (filter_only _ pre post old Hrest' Hold').
  rewrite (change_only (matches [("id", id)]) (λ r, json_object payload ∪ r)
             pre post old Hrest' Hold').
  rewrite list_fmap_singleton, Hold'. reflexivity.
Qed.

End ReferenceFacts.

Import Reference ReferenceFacts.

(** C7: updatePatient and updateAppointment send the given fields,
    stamped with the clock reading of the call, to the row with the given
    primary key, and return the answer's row, or null when the remote
    call fails.  Against the reference backend, when one row has that id,
    that row takes the given fields and the call-time updated_at, every
    other row stays as it was, and the updated row is what is
    returned. *)
Theorem update_applies_fields_and_stamps (c : Updatable) (id : string) (updates : Row) :
  (∀ (S : Type) (env : Env S) (s s1 s2 : S) (now : Z) (res : Response),
     clock_read env s = (now, s1) →
     remote env (Rest (update_query (update_table c) id (stamped updates now))) s1 = (res, s2) →
     let r := run env (update_program c id updates) s in
     (∀ e, error res = Some e → outcome r = Returned VNull)
     ∧ (error res = None → outcome r = Returned (data res)))
  ∧ (∀ (w : World) (pre post : list Row) (old : Row),
     next_fault w = None →
     tables w !! update_table c = Some (pre ++ old :: post) →
     old !! "id" = Some (VStr id) →
     Forall (λ r, r !! "id" ≠ Some (VStr id)) (pre ++ post) →
     let r := run Reference.env (update_program c id updates) w in
     let new := json_object (stamped updates (clock w)) ∪ old in
     outcome r = Returned (VObj new)
     ∧ tables (final r) !! update_table c = Some (pre ++ new :: post)
     ∧ new !! "updated_at" = Some (VStr (toISOString (clock w)))
     ∧ (∀ f v, f ≠ "updated_at" → updates !! f = Some v → v ≠ VUndef →
          new !! f = Some v)
     ∧ (∀ f, f ≠ "updated_at" → updates !! f = None → new !! f = old !! f)).
Proof.
  split.
  - intros S env s s1 s2 now res Hclock Hcall r. subst r.
    rewrite (update_program_run env c s s1 s2 id updates now res Hclock Hcall). simpl.
    split; [by intros e ->|by intros ->].
  - intros w pre post old Hfault Ht Hold Hrest r new.
    pose proof (rest_update_one (update_table c) id (stamped updates (clock w))
                  (set_faults (tail (faults w)) w) pre old post Ht Hold Hrest) as Hrest_eq.
    assert (Hcall : remote Reference.env
                      (Rest (update_query (update_table c) id (stamped updates (clock w)))) w
                    = (ok (VObj new),
                       set_tables (<[update_table c := pre ++ new :: post]> (tables w))
                         (set_faults (tail (faults w)) w))).
    { simpl. rewrite (exec_reaches _ w Hfault). exact Hrest_eq. }
    subst r.
    rewrite (update_program_run Reference.env c w w _ id updates (clock w) _ eq_refl Hcall).
    simpl. repeat split.
    + apply lookup_insert_eq.
    + apply lookup_union_Some_l, json_object_lookup; [apply lookup_insert_eq|done].
    + intros f v Hf Hv Hdef. apply lookup_union_Some_l, json_object_lookup; [|done].
      unfold stamped. by rewrite lookup_insert_ne.
    + intros f Hf Hnone. apply lookup_union_r, json_object_lookup_None.
      unfold stamped. by rewrite lookup_insert_ne.
Qed.

Lemma update_applies_fields_and_stamps_witness :
  let r := run Reference.env (updatePatient "p1" (<["name" := VStr "Ana R."]> ∅))
             (Fixtures.clinic []) in
  let new := json_object (stamped (<["name" := VStr "Ana R."]> ∅) 1700000000123) ∪ Fixtures.ana in
  outcome r = Returned (VObj new)
  ∧ tables (final r) !! "patients" = Some [new; Fixtures.luis]
  ∧ new !! "updated_at" = Some (VStr "2023-11-14T22:13:20.123Z")
  ∧ new !! "name" = Some (VStr "Ana R.")
  ∧ new !! "cedula" = Some (VStr "001")
  ∧ outcome (run Reference.env (updatePatient "p1" (<["name" := VStr "Ana R."]> ∅))
               (Fixtures.clinic [Some Fixtures.boom])) = Returned VNull.
Proof.
  destruct (update_applies_fields_and_stamps UPatient "p1" (<["name" := VStr "Ana R."]> ∅))
    as [Hany Href].
  destruct (Href (Fixtures.clinic []) [] [Fixtures.luis] Fixtures.ana eq_refl eq_refl eq_refl)
    as (Hout & Htab & Hstamp & Hgiven & Hkept).
  { repeat constructor. discriminate. }
  destruct (Hany World Reference.env (Fixtures.clinic [Some Fixtures.boom])
              (Fixtures.clinic [Some Fixtures.boom]) (Fixtures.clinic []) 1700000000123
              {| data := VNull; error := Some Fixtures.boom |} eq_refl eq_refl) as [Hfail _].
  intros r new.
  split; [exact Hout|]. split; [exact Htab|]. split; [exact Hstamp|].
  split; [apply (Hgiven "name" (VStr "Ana R.")); [discriminate|reflexivity|discriminate]|].
  split; [exact (eq_trans (Hkept "cedula" ltac:(discriminate) eq_refl) eq_refl)|].
  exact (Hfail Fixtures.boom eq_refl).
Defined.

(** ** Inserting *)

Lemma insert_query_fields (t : string) (row : Row) :
  insert_query t row =
    {| Supabase.table := t; Supabase.action := Supabase.Insert [VObj row];
       Supabase.filters := []; Supabase.ordering := None;
       Supabase.returning := true; Supabase.single_row := true |}.
Proof. reflexivity. Qed.

(** The insert request of the gateway, answered by the service. *)
Lemma rest_insert_one t (row : Row) w rows :
  tables w !! t = Some rows →
  rest (insert_query t row) w =
    (ok (VObj (json_object row ∪ generated t w)),
     set_tables (<[t := rows ++ [json_object row ∪ generated t w]]> (tables w)) (bump w)).
Proof.
  intros Ht. unfold rest. rewrite insert_query_fields.
  cbn [Supabase.table Supabase.action Supabase.filters Supabase.returning
       Supabase.single_row]. rewrite Ht.
  cbn [store_rows]. unfold append_row. cbn [tables bump]. rewrite Ht. reflexivity.
Qed.

(** One step of [run] on a program written with the monad notations. *)
Ltac run_step :=
  cbn [run bind mbind Prog_bind mret Prog_ret await date_now console_error
       observe outcome final trace].

(** C4: addMedicalHistory issues the treatments increment for the owning
    patient only after the history insert succeeded: a failed insert is
    logged and answered with null, and no increment is issued.  Whatever
    the increment call answers, the inserted row is returned, nothing is
    logged and no further call (no compensating delete) is made; against
    the reference backend the inserted row stays in the collection when
    the increment fails. *)
Theorem addMedicalHistory_increment_is_best_effort (history : Row) :
  (∀ (S : Type) (env : Env S) (s s1 : S) (ins : Response),
     remote env (Rest (insert_query "medical_history" history)) s = (ins, s1) →
     let r := run env (addMedicalHistory history) s in
     (∀ e, error ins = Some e →
        outcome r = Returned VNull
        ∧ trace r = [Called (Rest (insert_query "medical_history" history)) ins;
                     Logged "Error adding medical history:" e]
        ∧ ¬ called (trace r) (Rpc "increment_patient_treatments" (increment_args history)))
     ∧ (error ins = None →
        ∀ (inc : Response) (s2 : S),
          remote env (Rpc "increment_patient_treatments" (increment_args history)) s1 = (inc, s2) →
          outcome r = Returned (data ins)
          ∧ final r = s2
          ∧ trace r = [Called (Rest (insert_query "medical_history" history)) ins;
                       Called (Rpc "increment_patient_treatments" (increment_args history)) inc]))
  ∧ (∀ (w : World) (rows : list Row) (e : Error) (fs : list (option Error)),
     faults w = None :: Some e :: fs →
     tables w !! "medical_history" = Some rows →
     let r := run Reference.env (addMedicalHistory history) w in
     let row := json_object history ∪ generated "medical_history" w in
     outcome r = Returned (VObj row)
     ∧ tables (final r) !! "medical_history" = Some (rows ++ [row])
     ∧ tables (final r) !! "patients" = tables w !! "patients"
     ∧ failed (trace r) (Rpc "increment_patient_treatments" (increment_args history)) e).
Proof.
  split.
  - intros S env s s1 ins Hins r. subst r. unfold addMedicalHistory.
    change (Rest _) with (Rest (insert_query "medical_history" history)) in |- *.
    change (Rpc _ _) with (Rpc "increment_patient_treatments" (increment_args history)).
    run_step. rewrite Hins. run_step. split.
    + intros e ->. run_step. repeat split.
      intros [res [Heq|[Heq|[]]]]; discriminate.
    + intros ->. intros inc s2 Hinc. run_step. rewrite Hinc. run_step.
      repeat split.
  - intros w rows e fs Hf Ht r row.
    assert (Hins : exec (Rest (insert_query "medical_history" history)) w =
                   (ok (VObj row),
                    set_tables (<["medical_history" := rows ++ [row]]> (tables w))
                      (bump (set_faults (Some e :: fs) w)))).
    { unfold exec. rewrite Hf. simpl perform.
      by rewrite (rest_insert_one "medical_history" history _ rows). }
    subst r. unfold addMedicalHistory.
    change (Rest _) with (Rest (insert_query "medical_history" history)) in |- *.
    simpl. rewrite Hins. simpl.
    split; [reflexivity|]. split; [apply lookup_insert_eq|]. split.
    + by rewrite lookup_insert_ne.
    + eexists. split; [right; left; reflexivity|reflexivity].
Qed.

Lemma addMedicalHistory_increment_is_best_effort_witness :
  let history : Row := <["patient_id" := VStr "p1"]> (<["date" := VStr "2024-06-01"]> ∅) in
  let r := run Reference.env (addMedicalHistory history)
             (Fixtures.clinic [None; Some Fixtures.boom]) in
  let row := json_object history ∪ generated "medical_history" (Fixtures.clinic []) in
  outcome r = Returned (VObj row)
  ∧ rows_of "medical_history" (final r) =
      [Fixtures.history_row "h1" "p1" "2024-02-01"; Fixtures.history_row "h2" "p2" "2024-02-03";
       Fixtures.history_row "h3" "p1" "2024-02-07"; row]
  ∧ rows_of "patients" (final r) = [Fixtures.ana; Fixtures.luis]
  ∧ outcome (run Reference.env (addMedicalHistory history)
               (Fixtures.clinic [Some Fixtures.boom])) = Returned VNull.
Proof.
  intros history r row.
  destruct (addMedicalHistory_increment_is_best_effort history) as [Hany Href].
  destruct (Href (Fixtures.clinic [None; Some Fixtures.boom]) _ Fixtures.boom [] eq_refl eq_refl)
    as (Hout & Hrows & Hpatients & _).
  destruct (Hany World Reference.env (Fixtures.clinic [Some Fixtures.boom]) (Fixtures.clinic [])
              {| data := VNull; error := Some Fixtures.boom |} eq_refl) as [Hfail _].
  split; [exact Hout|].
  split; [unfold rows_of; exact (eq_trans (f_equal (default []) Hrows) eq_refl)|].
  split; [unfold rows_of; exact (eq_trans (f_equal (default []) Hpatients) eq_refl)|].
  exact (proj1 (Hfail Fixtures.boom eq_refl)).
Defined.

(** ** Uploading a file *)

(** C3: uploadPatientFile first writes the blob under the key
    [{patient_id}/{timestamp}-{original file name}] in the patient-files
    bucket.  When that upload fails the error is logged, null is returned
    and nothing else is requested, so no metadata row is inserted
    (against the reference backend neither the tables nor the bucket
    change).  Only after a successful upload is the metadata row
    inserted; it carries the path the storage answered with, the original
    name, the declared MIME type and the byte size. *)
Theorem uploadPatientFile_uploads_before_metadata (patientId : string) (file : File) :
  (∀ (S : Type) (env : Env S) (s s1 s2 : S) (now : Z) (up : Response),
     clock_read env s = (now, s1) →
     remote env (StorageUpload "patient-files"
                   (patientId +:+ "/" +:+ number_to_string now +:+ "-" +:+ file_name file)
                   file) s1 = (up, s2) →
     let upload := StorageUpload "patient-files"
                     (patientId +:+ "/" +:+ number_to_string now +:+ "-" +:+ file_name file)
                     file in
     let r := run env (uploadPatientFile patientId file) s in
     (∀ e, error up = Some e →
        outcome r = Returned VNull ∧ final r = s2
        ∧ trace r = [Clock now; Called upload up; Logged "Error uploading file:" e])
     ∧ (∀ (o : Row) (path : Value) (ins : Response) (s3 : S),
        error up = None → data up = VObj o → o !! "path" = Some path →
        remote env (Rest (insert_query "patient_files" (fileData patientId file path))) s2
          = (ins, s3) →
        outcome r = Returned (match error ins with Some _ => VNull | None => data ins end)
        ∧ trace r = Clock now :: Called upload up
                    :: Called (Rest (insert_query "patient_files" (fileData patientId file path))) ins
                    :: match error ins with
                       | Some e => [Logged "Error saving file metadata:" e]
                       | None => []
                       end
        ∧ fileData patientId file path !! "storage_path" = Some path
        ∧ fileData patientId file path !! "name" = Some (VStr (file_name file))
        ∧ fileData patientId file path !! "type" = Some (VStr (file_type file))
        ∧ fileData patientId file path !! "size" = Some (VNum (file_size file))
        ∧ fileData patientId file path !! "patient_id" = Some (VStr patientId)))
  ∧ (∀ (w : World) (e : Error),
     error (exec (StorageUpload "patient-files" (fileName patientId (clock w) file) file) w).1
       = Some e →
     let r := run Reference.env (uploadPatientFile patientId file) w in
     outcome r = Returned VNull
     ∧ tables (final r) = tables w
     ∧ buckets (final r) = buckets w).
Proof.
  split.
  - intros S env s s1 s2 now up Hclock Hup upload r. subst r upload.
    unfold uploadPatientFile, fileName. run_step. rewrite Hclock. run_step.
    rewrite Hup. run_step. split.
    + intros e ->. run_step. repeat split.
    + intros o path ins s3 -> -> Hpath Hins. cbn [member]. rewrite Hpath.
      cbn [default]. run_step.
      change (Rest _) with (Rest (insert_query "patient_files" (fileData patientId file path))).
      rewrite Hins. run_step.
      split; [by destruct (error ins)|]. split; [by destruct (error ins)|].
      unfold fileData. repeat split; by simplify_map_eq.
  - intros w e Herr r. subst r.
    unfold uploadPatientFile. run_step. cbn [clock_read Reference.env remote].
    destruct (exec (StorageUpload "patient-files" (fileName patientId (clock w) file) file) w)
      as [up w'] eqn:Hup.
    cbn [fst] in Herr. run_step. rewrite Herr. run_step.
    split; [reflexivity|].
    unfold exec in Hup.
    assert (Hperform : ∀ w0, tables (perform (StorageUpload "patient-files"
                                       (fileName patientId (clock w) file) file) w0).2
                             = tables w0
                             ∧ (error (perform (StorageUpload "patient-files"
                                       (fileName patientId (clock w) file) file) w0).1 ≠ None →
                                buckets (perform (StorageUpload "patient-files"
                                       (fileName patientId (clock w) file) file) w0).2
                                = buckets w0)).
    { intros w0. cbn [perform storage].
      destruct (buckets w0 !! "patient-files") as [objs|]; [|done].
      destruct (objs !! fileName patientId (clock w) file); [done|].
      split; [done|]. intros Hne. by destruct Hne. }
    destruct (faults w) as [|[e'|] fs] eqn:Hf.
    + destruct (Hperform w) as [Ht Hb]. rewrite Hup in Ht, Hb. cbn [fst snd] in Ht, Hb.
      split; [exact Ht|]. apply Hb. by rewrite Herr.
    + injection Hup as <- <-. done.
    + destruct (Hperform (set_faults fs w)) as [Ht Hb]. rewrite Hup in Ht, Hb.
      cbn [fst snd] in Ht, Hb. split; [exact Ht|]. apply Hb. by rewrite Herr.
Qed.

Lemma uploadPatientFile_uploads_before_metadata_witness :
  let failing := run Reference.env (uploadPatientFile "p1" Fixtures.rx)
                   (Fixtures.clinic [Some Fixtures.boom]) in
  let passing := run Reference.env (uploadPatientFile "p1" Fixtures.rx) (Fixtures.clinic []) in
  outcome failing = Returned VNull
  ∧ tables (final failing) = tables (Fixtures.clinic [])
  ∧ buckets (final failing) = buckets (Fixtures.clinic [])
  ∧ trace failing =
      [Clock 1700000000123;
       Called (StorageUpload "patient-files" "p1/1700000000123-rx.png" Fixtures.rx)
         {| data := VNull; error := Some Fixtures.boom |};
       Logged "Error uploading file:" Fixtures.boom]
  ∧ outcome passing =
      Returned (VObj (json_object (fileData "p1" Fixtures.rx (VStr "p1/1700000000123-rx.png"))
                      ∪ generated "patient_files" (Fixtures.clinic []))).
Proof.
  intros failing passing.
  destruct (uploadPatientFile_uploads_before_metadata "p1" Fixtures.rx) as [Hany Href].
  destruct (Href (Fixtures.clinic [Some Fixtures.boom]) Fixtures.boom eq_refl)
    as (Hout & Htables & Hbuckets).
  destruct (Hany World Reference.env (Fixtures.clinic [Some Fixtures.boom])
              (Fixtures.clinic [Some Fixtures.boom]) (Fixtures.clinic []) 1700000000123
              {| data := VNull; error := Some Fixtures.boom |} eq_refl eq_refl)
    as [Hfail _].
  destruct (Hfail Fixtures.boom eq_refl) as (_ & _ & Htrace).
  destruct (Hany World Reference.env (Fixtures.clinic []) (Fixtures.clinic [])
              (exec (StorageUpload "patient-files" "p1/1700000000123-rx.png" Fixtures.rx)
                 (Fixtures.clinic [])).2
              1700000000123
              (exec (StorageUpload "patient-files" "p1/1700000000123-rx.png" Fixtures.rx)
                 (Fixtures.clinic [])).1 eq_refl eq_refl)
    as [_ Hpass].
  destruct (Hpass _ (VStr "p1/1700000000123-rx.png") _ _ eq_refl eq_refl eq_refl eq_refl)
    as (Hout' & _).
  split; [exact Hout|]. split; [exact Htables|]. split; [exact Hbuckets|].
  split; [exact Htrace|]. exact Hout'.
Defined.

(** ** Deleting a file *)

Lemma delete_query_fields (t id : string) :
  delete_query t id =
    {| Supabase.table := t; Supabase.action := Supabase.Delete;
       Supabase.filters := [("id", id)]; Supabase.ordering := None;
       Supabase.returning := false; Supabase.single_row := false |}.
Proof. reflexivity. Qed.


(** Membership of a call in an explicit trace, decomposed. *)
Ltac trace_inv H :=
  repeat match type of H with
         | In _ (_ :: _) => destruct H as [H|H]
         | In _ [] => destruct H
         | Called _ _ = Called _ _ => injection H as H ?; subst
         | Logged _ _ = _ => discriminate H
         | Clock _ = _ => discriminate H
         end.

(** A hypothesis that some call of a trace failed (or succeeded),
    decomposed into the calls it can be. *)
Ltac call_inv H :=
  let res := fresh "res" in
  let Hin := fresh "Hin" in
  let Herr := fresh "Herr" in
  destruct H as (res & Hin & Herr); cbn [trace] in Hin; trace_inv Hin;
  try discriminate; try congruence.

(** ** Ordering of listings *)

Section Ordering.

Lemma string_le_total (x y : string) :
  String_as_OT.compare x y ≠ Gt ∨ String_as_OT.compare y x ≠ Gt.
Proof.
  destruct (String_as_OT.compare_spec x y) as [Heq|Hlt|Hgt]; [by left|by left|].
  right. unfold String_as_OT.lt in Hgt. by rewrite Hgt.
Qed.

Lemma string_le_trans (x y z : string) :
  String_as_OT.compare x y ≠ Gt → String_as_OT.compare y z ≠ Gt →
  String_as_OT.compare x z ≠ Gt.
Proof.
  destruct (String_as_OT.compare_spec x y) as [->|Hxy|_]; [done| |done].
  destruct (String_as_OT.compare_spec y z) as [<-|Hyz|_]; [|intros _ _|done].
  - intros _ _. unfold String_as_OT.lt in Hxy. by rewrite Hxy.
  - assert (Hxz : String_as_OT.lt x z) by (etransitivity; eassumption).
    unfold String_as_OT.lt in Hxz. by rewrite Hxz.
Qed.

Lemma value_leb_total (a b : Value) : value_leb a b = true ∨ value_leb b a = true.
Proof.
  destruct a as [| |x|x|x|x|x], b as [| |y|y|y|y|y]; simpl; auto.
  - destruct x, y; auto.
  - destruct (Z.leb_spec x y); [by left|right]. apply Z.leb_le. lia.
  - destruct (string_le_total x y) as [H|H]; [left|right];
      by destruct (String_as_OT.compare _ _).
Qed.

Lemma value_leb_trans (a b c : Value) :
  value_leb a b = true → value_leb b c = true → value_leb a c = true.
Proof.
  destruct a as [| |x|x|x|x|x], b as [| |y|y|y|y|y], c as [| |z|z|z|z|z];
    simpl; try done.
  - destruct x, y, z; done.
  - rewrite !Z.leb_le. lia.
  - intros Hxy Hyz.
    assert (String_as_OT.compare x z ≠ Gt) as Hxz.
    { apply (string_le_trans x y z).
      - by destruct (String_as_OT.compare x y).
      - by destruct (String_as_OT.compare y z). }
    by destruct (String_as_OT.compare x z).
Qed.

#[global] Instance row_le_total c : Total (row_le c).
Proof. intros r1 r2. apply value_leb_total. Qed.

#[global] Instance row_le_trans c : Transitive (row_le c).
Proof. intros r1 r2 r3. apply value_leb_trans. Qed.

#[global] Instance row_ge_total c : Total (row_ge c).
Proof. intros r1 r2. unfold row_ge, flip. destruct (total (row_le c) r1 r2); auto. Qed.

#[global] Instance row_ge_trans c : Transitive (row_ge c).
Proof. intros r1 r2 r3 H12 H23. unfold row_ge, flip in *. by etransitivity. Qed.

(** The rows a sorted listing holds are the rows it was given. *)
Lemma sort_rows_perm o rows : sort_rows o rows ≡ₚ rows.
Proof.
  destruct o as [[c [|]]|]; simpl; [apply merge_sort_Permutation..|done].
Qed.

End Ordering.

(** ** Listing against the reference backend *)

(** A listing request the service answers without error: the answer is
    the selected rows of the collection. *)
Lemma exec_list_query (op : ListOp) (w w' : World) (res : Response) :
  exec (Rest (list_query op)) w = (res, w') →
  error res = None →
  ∃ rows0,
    tables w' = tables w
    ∧ tables w !! Supabase.table (list_query op) = Some rows0
    ∧ data res = VArr (VObj <$> select_rows w' (list_query op) (list_columns op) rows0).
Proof.
  assert (Hrest : ∀ w0, tables w0 = tables w →
            rest (list_query op) w0 = (res, w') → error res = None →
            ∃ rows0, tables w' = tables w
              ∧ tables w !! Supabase.table (list_query op) = Some rows0
              ∧ data res = VArr (VObj <$> select_rows w' (list_query op) (list_columns op) rows0)).
  { intros w0 Hw0. unfold rest. rewrite Hw0.
    destruct (tables w !! Supabase.table (list_query op)) as [rows0|] eqn:Ht.
    - destruct op; cbn [list_query Supabase.action Supabase.single_row rows_response
                        Supabase.order Supabase.eq Supabase.select Supabase.start
                        Supabase.from];
        intros [= <- <-] _; exists rows0; by rewrite Hw0.
    - intros [= <- <-]. discriminate. }
  unfold exec. destruct (faults w) as [|[e|] fs]; cbn [perform].
  - by apply Hrest.
  - intros [= <- <-]. discriminate.
  - by apply Hrest.
Qed.

Lemma project_all (w : World) (r : Row) : project w [AllColumns] r = r.
Proof. unfold project. simpl. apply (left_id_L ∅ (∪)). Qed.

Lemma project_join (w : World) (r : Row) :
  project w [AllColumns; InnerJoin "patients" ["name"]] r =
    <["patients" := match referenced w "patients" r with
                    | Some p => VObj (<["name" := column "name" p]> ∅)
                    | None => VNull
                    end]> r.
Proof. unfold project. simpl. by rewrite (left_id_L ∅ (∪)). Qed.

(** Mapping a function that always returns. *)
Lemma for_each_pure (f : Value → Prog Value) (g : Value → Value) (l : list Value) :
  Forall (λ x, f x = Ret (g x)) l → for_each f l = Ret (g <$> l).
Proof.
  induction 1 as [|x l Hx _ IH]; [done|].
  cbn [for_each]. rewrite Hx, IH. reflexivity.
Qed.

Lemma with_patient_name_cases (apt : Value) :
  (∃ x, with_patient_name apt = Ret x ∧ flattened apt x)
  ∨ (∃ e, with_patient_name apt = Throw e).
Proof.
  destruct apt as [| |b|n|str|l|a]; try (right; eexists; reflexivity).
  unfold with_patient_name. cbn [member mbind Prog_bind bind].
  destruct (a !! "patients") as [pv|] eqn:Hpv; [|right; eexists; reflexivity].
  destruct pv as [| |b|n|str|l|j]; try (right; eexists; reflexivity);
    left; eexists; (split; [reflexivity|]); eexists a, _; by repeat split.
Qed.

Lemma for_each_with_patient_name (l : list Value) :
  (∃ ys, for_each with_patient_name l = Ret ys ∧ Forall2 flattened l ys)
  ∨ (∃ e, for_each with_patient_name l = Throw e).
Proof.
  induction l as [|x l IH].
  - left. exists []. split; [done|constructor].
  - cbn [for_each]. destruct (with_patient_name_cases x) as [(y & -> & Hy)|(e & ->)].
    + destruct IH as [(ys & -> & Hys)|(e & ->)].
      * left. exists (y :: ys). split; [done|by constructor].
      * right. by exists e.
    + right. by exists e.
Qed.

Lemma with_patient_name_joined (r : Row) (j : Row) :
  r !! "patients" = Some (VObj j) →
  with_patient_name (VObj r) = Ret (VObj (named_row r)).
Proof.
  intros Hj. unfold with_patient_name, named_row.
  cbn [member mbind Prog_bind bind]. rewrite Hj. reflexivity.
Qed.

Lemma joined_appointments_patients (w : World) (rows0 : list Row) :
  Forall (λ r, ∃ p, referenced w "patients" r = Some p
                    ∧ r !! "patients" = Some (VObj (<["name" := column "name" p]> ∅)))
         (joined_appointments w rows0).
Proof.
  unfold joined_appointments. apply Forall_fmap, Forall_forall. intros r Hr.
  rewrite merge_sort_Permutation in Hr.
  apply list_elem_of_In, List.filter_In in Hr. destruct Hr as [_ Hr].
  cbn [matches forallb visible appointment_columns] in Hr.
  rewrite !andb_true_r, andb_true_l in Hr. apply bool_decide_eq_true in Hr.
  destruct Hr as [p Hp]. exists p. cbn [compose]. unfold appointment_columns.
  rewrite project_join, Hp. split.
  - unfold referenced, column in *. by rewrite lookup_insert_ne.
  - apply lookup_insert_eq.
Qed.

(** getAppointments against the reference backend, when its request is
    answered without error. *)
Lemma getAppointments_reference (w : World) :
  succeeded (trace (run Reference.env getAppointments w)) (Rest (list_query ListAppointments)) →
  ∃ w' rows0,
    tables w' = tables w
    ∧ tables w !! "appointments" = Some rows0
    ∧ outcome (run Reference.env getAppointments w) =
        Returned (VArr (VObj <$> (named_row <$> joined_appointments w' rows0))).
Proof.
  unfold getAppointments.
  change (Rest _) with (Rest (list_query ListAppointments)).
  run_step. cbn [remote Reference.env].
  destruct (exec (Rest (list_query ListAppointments)) w) as [res w'] eqn:Hexec.
  run_step. destruct (error res) as [e|] eqn:Herr; run_step.
  { intros H. call_inv H. }
  intros _. destruct (exec_list_query _ _ _ _ Hexec Herr) as (rows0 & Htables & Ht & Hdata).
  exists w', rows0. split; [done|]. split; [done|].
  rewrite Hdata. cbn [optional_map mbind Prog_bind].
  change (select_rows w' (list_query ListAppointments) (list_columns ListAppointments) rows0)
    with (joined_appointments w' rows0).
  rewrite (for_each_pure with_patient_name
             (λ x, VObj (named_row (spread x))) (VObj <$> joined_appointments w' rows0)).
  - run_step. rewrite <- !list_fmap_compose. reflexivity.
  - apply Forall_fmap. eapply Forall_impl; [apply joined_appointments_patients|].
    intros r (p & _ & Hr). cbn [compose spread]. by eapply with_patient_name_joined.
Qed.

Lemma flattened_carries_both (l out : list Value) :
  Forall2 flattened l out →
  Forall (λ x, ∃ (o : Row) (pv : Value),
            x = VObj o ∧ o !! "patients" = Some pv ∧ nullish pv = false
            ∧ o !! "patientName" = Some (optional_member pv "name")) out.
Proof.
  induction 1 as [|apt x l out (a & pv & -> & Hpv & Hnn & ->) _ IH]; constructor; [|done].
  exists (<["patientName" := optional_member pv "name"]> a), pv.
  split; [done|]. split; [by rewrite lookup_insert_ne|]. split; [done|].
  apply lookup_insert_eq.
Qed.

(** C10: every element getAppointments returns carries the raw nested
    join object of the fetched row under [patients] together with the
    flattened [patientName]; the flattening step adds the one without
    removing the other.  Against the reference backend the nested object
    holds the joined patient's name, which is the value of
    [patientName]. *)
Theorem getAppointments_keeps_join_object :
  (∀ (S : Type) (env : Env S) (s s' : S) (res : Response) (out : list Value),
     remote env (Rest (list_query ListAppointments)) s = (res, s') →
     error res = None →
     outcome (run env getAppointments s) = Returned (VArr out) →
     Forall2 flattened (match data res with VArr l => l | _ => [] end) out
     ∧ Forall (λ x, ∃ (o : Row) (pv : Value),
                 x = VObj o ∧ o !! "patients" = Some pv ∧ nullish pv = false
                 ∧ o !! "patientName" = Some (optional_member pv "name")) out)
  ∧ (∀ w : World,
     succeeded (trace (run Reference.env getAppointments w))
       (Rest (list_query ListAppointments)) →
     ∃ out, outcome (run Reference.env getAppointments w) = Returned (VArr out)
       ∧ Forall (λ x, ∃ (o : Row) (n : Value),
                   x = VObj o ∧ o !! "patients" = Some (VObj (<["name" := n]> ∅))
                   ∧ o !! "patientName" = Some n) out).
Proof.
  split.
  - intros S env s s' res out Hcall Herr.
    assert (Hflat : outcome (run env getAppointments s) = Returned (VArr out) →
              Forall2 flattened (match data res with VArr l => l | _ => [] end) out).
    { unfold getAppointments.
      change (Rest _) with (Rest (list_query ListAppointments)).
      run_step. rewrite Hcall. run_step. rewrite Herr.
      destruct (data res) as [| |b|n|str|l|o]; cbn [optional_map mbind Prog_bind];
        run_step; try discriminate; try (intros [= <-]; constructor).
      destruct (for_each_with_patient_name l) as [(ys & -> & Hys)|(e & ->)]; run_step.
      - by intros [= <-].
      - discriminate. }
    intros Hout. split; [by apply Hflat|].
    eapply flattened_carries_both, Hflat, Hout.
  - intros w Hok. destruct (getAppointments_reference w Hok) as (w' & rows0 & _ & _ & Hout).
    eexists. split; [exact Hout|].
    rewrite <- list_fmap_compose. apply Forall_fmap.
    eapply Forall_impl; [apply joined_appointments_patients|].
    intros r (p & _ & Hr). cbn [compose]. eexists (named_row r), (column "name" p).
    split; [done|]. unfold named_row. split.
    + by rewrite lookup_insert_ne.
    + rewrite lookup_insert_eq, Hr. cbn [default optional_member id].
      by rewrite lookup_insert_eq.
Qed.

Lemma getAppointments_keeps_join_object_witness :
  ∃ out, outcome (run Reference.env getAppointments (Fixtures.clinic [])) = Returned (VArr out)
    ∧ length out = 3%nat
    ∧ Forall (λ x, ∃ (o : Row) (n : Value),
                x = VObj o ∧ o !! "patients" = Some (VObj (<["name" := n]> ∅))
                ∧ o !! "patientName" = Some n) out
    ∧ Forall (λ x, ∃ (o : Row) (pv : Value),
                x = VObj o ∧ o !! "patients" = Some pv ∧ nullish pv = false
                ∧ o !! "patientName" = Some (optional_member pv "name")) out.
Proof.
  destruct getAppointments_keeps_join_object as [Hany Href].
  destruct (Href (Fixtures.clinic [])) as (out & Hout & Hall).
  { eexists. split; [left; reflexivity|reflexivity]. }
  destruct (Hany World Reference.env (Fixtures.clinic [])
              (exec (Rest (list_query ListAppointments)) (Fixtures.clinic [])).2
              (exec (Rest (list_query ListAppointments)) (Fixtures.clinic [])).1
              out eq_refl eq_refl Hout) as [_ Hboth].
  exists out. split; [exact Hout|]. split; [|split; [exact Hall|exact Hboth]].
  assert (Hlen : ∀ o : Outcome Value,
            o = Returned (VArr out) →
            match o with Returned (VArr l) => length l | _ => 0%nat end = length out)
    by (by intros o ->).
  rewrite <- (Hlen _ Hout). reflexivity.
Defined.

#[global] Instance list_order_total op : Total (list_order op).
Proof. destruct op; apply _. Qed.

#[global] Instance list_order_trans op : Transitive (list_order op).
Proof. destruct op; apply _. Qed.

Ltac crunch :=
  repeat (run_step;
    match goal with
    | |- context [remote ?env ?r ?s] =>
        let res := fresh "res" in
        let s' := fresh "s" in
        destruct (remote env r s) as [res s']
    | |- context [clock_read ?env ?s] =>
        let t := fresh "t" in
        let s' := fresh "s" in
        destruct (clock_read env s) as [t s']
    | |- context [match error ?res with _ => _ end] =>
        let H := fresh "Herr" in
        destruct (error res) eqn:H
    | |- context [member (data ?res) ?p] =>
        let H := fresh "Hdata" in
        destruct (data res) eqn:H; cbn [member]
    | |- context [optional_map (data ?res) _] =>
        let H := fresh "Hdata" in
        destruct (data res) eqn:H; cbn [optional_map]
    | |- context [for_each with_patient_name ?l] =>
        let ys := fresh "ys" in
        let e := fresh "e" in
        destruct (for_each_with_patient_name l) as [(ys & -> & _)|(e & ->)]
    end).

(** The listings without a join, against the reference backend: the
    answer is the matching rows of the collection, sorted. *)
Lemma plain_list_reference (op : ListOp) (w : World) :
  op ≠ ListAppointments →
  succeeded (trace (run Reference.env (list_program op) w)) (Rest (list_query op)) →
  ∃ rows0,
    tables w !! Supabase.table (list_query op) = Some rows0
    ∧ outcome (run Reference.env (list_program op) w) =
        Returned (VArr (VObj <$> sort_rows (Supabase.ordering (list_query op))
                                   (List.filter (matches (Supabase.filters (list_query op))) rows0))).
Proof.
  intros Hop.
  assert (Hrun : run Reference.env (list_program op) w =
            let '(res, w') := exec (Rest (list_query op)) w in
            observe (Called (Rest (list_query op)) res)
              (run Reference.env
                 match error res with
                 | Some e => ConsoleError (list_label op) e (Ret (VArr []))
                 | None => Ret (js_or (data res) (VArr []))
                 end w')).
  { by destruct op. }
  rewrite Hrun. clear Hrun.
  destruct (exec (Rest (list_query op)) w) as [res w'] eqn:Hexec.
  destruct (error res) as [e|] eqn:Herr; run_step.
  { intros H. call_inv H. }
  intros _. destruct (exec_list_query _ _ _ _ Hexec Herr) as (rows0 & _ & Ht & Hdata).
  exists rows0. split; [done|]. rewrite Hdata. unfold js_or. cbn [truthy].
  unfold select_rows.
  assert (Hcols : list_columns op = [AllColumns]) by by destruct op.
  rewrite Hcols.
  rewrite (list_fmap_ext (project w' [AllColumns]) id) by (intros; apply project_all).
  rewrite list_fmap_id. do 4 f_equal.
  apply List.filter_ext. intros r. cbn [visible forallb]. by rewrite !andb_true_r.
Qed.

(** ** The whole surface *)




(** * Further properties of the gateway *)

(** ** What a run logs, calls and raises *)

Ltac log_inv H :=
  repeat match type of H with
         | In _ (_ :: _) => destruct H as [H|H]
         | In _ [] => destruct H
         | Logged _ _ = Logged _ _ => injection H as ? ?; subst
         | Called _ _ = Logged _ _ => discriminate H
         | Clock _ = Logged _ _ => discriminate H
         end.

Ltac unfold_operation :=
  unfold operation, getPatients, getPatientById, createPatient, updatePatient,
    deletePatient, getMedicalHistory, addMedicalHistory, getAppointments, createAppointment,
    updateAppointment, deleteAppointment, getPatientFiles, uploadPatientFile,
    deletePatientFile, getFileUrl.

(** X1: whatever the environment answers, an operation writes an error to
    the console only if one of its own remote calls was answered with
    that very error: nothing is logged on a successful path. *)
Theorem logged_errors_are_call_errors {S : Type} (env : Env S) (s : S) (op : Operation)
    (e : Error) :
  logged (trace (run env (operation op) s)) e →
  ∃ req, failed (trace (run env (operation op) s)) req e.
Proof.
  destruct op; unfold_operation; crunch; run_step; intros [label Hin];
    log_inv Hin;
    eexists _, _; (split; [|eassumption]); cbn [In]; eauto 10.
Qed.

Lemma logged_errors_are_call_errors_witness :
  ∃ req, failed (trace (run Reference.env (operation (DeleteAppointment "a1"))
                          (Fixtures.clinic [Some Fixtures.boom]))) req Fixtures.boom.
Proof.
  apply (logged_errors_are_call_errors Reference.env (Fixtures.clinic [Some Fixtures.boom])
           (DeleteAppointment "a1") Fixtures.boom).
  exists "Error deleting appointment:". right; left; reflexivity.
Defined.


(** X3: the twelve operations that read no property of a fetched value
    never raise: whatever the environment answers, they return a
    value. *)
Theorem guarded_operations_always_return {S : Type} (env : Env S) (s : S) (op : Operation) :
  reads_unguarded op = false →
  ∃ v, outcome (run env (operation op) s) = Returned v.
Proof.
  destruct op; try discriminate; intros _; unfold_operation; crunch; run_step;
    eexists; reflexivity.
Qed.

Lemma guarded_operations_always_return_witness :
  ∃ v, outcome (run Reference.env (operation (CreateAppointment ∅))
                  (Fixtures.clinic [Some Fixtures.boom])) = Returned v.
Proof.
  apply (guarded_operations_always_return Reference.env (Fixtures.clinic [Some Fixtures.boom])
           (CreateAppointment ∅)).
  reflexivity.
Defined.

(** X4: uploadPatientFile raises exactly when the storage answers the
    upload with neither an error nor data: it reads [uploadData.path]
    without a guard.  In that case nothing is logged and no metadata row
    is requested. *)
Theorem uploadPatientFile_raises_iff {S : Type} (env : Env S) (s s1 s2 : S)
    (patientId : string) (file : File) (now : Z) (up : Response) :
  clock_read env s = (now, s1) →
  remote env (StorageUpload "patient-files" (fileName patientId now file) file) s1 = (up, s2) →
  let r := run env (uploadPatientFile patientId file) s in
  ((∃ x, outcome r = Thrown x) ↔ error up = None ∧ nullish (data up) = true)
  ∧ ((∃ x, outcome r = Thrown x) →
     trace r = [Clock now;
                Called (StorageUpload "patient-files" (fileName patientId now file) file) up]).
Proof.
  intros Hclock Hup r. subst r. unfold uploadPatientFile. run_step.
  rewrite Hclock. run_step. rewrite Hup. run_step.
  destruct (error up) as [e|] eqn:Herr; run_step.
  { split; [split|]; [intros [x Hx]; discriminate Hx|intros [? _]; discriminate|
                      intros [x Hx]; discriminate Hx]. }
  destruct (data up) as [| |b|n|str|l|o] eqn:Hdata; cbn [member nullish]; crunch; run_step;
    (split; [split|]);
    try (intros [x Hx]; discriminate Hx); try (intros [_ ?]; discriminate);
    try (intros _; eexists; reflexivity); try (intros _; split; reflexivity);
    try (intros _; reflexivity).
Qed.

Lemma uploadPatientFile_raises_iff_witness :
  ∃ x, outcome (run Fixtures.mute (uploadPatientFile "p1" Fixtures.rx) tt) = Thrown x.
Proof.
  apply (uploadPatientFile_raises_iff Fixtures.mute tt tt tt "p1" Fixtures.rx 5
           {| data := VNull; error := None |} eq_refl eq_refl).
  split; reflexivity.
Defined.

(** X5: deletePatientFile raises exactly when the metadata fetch is
    answered with neither an error nor data: it reads
    [fileData.storage_path] without a guard.  In that case nothing is
    logged, and neither the blob removal nor the row deletion is
    requested. *)
Theorem deletePatientFile_raises_iff {S : Type} (env : Env S) (s s1 : S)
    (fileId : string) (fetched : Response) :
  remote env (Rest (fetch_file_query fileId)) s = (fetched, s1) →
  let r := run env (deletePatientFile fileId) s in
  ((∃ x, outcome r = Thrown x) ↔ error fetched = None ∧ nullish (data fetched) = true)
  ∧ ((∃ x, outcome r = Thrown x) →
     trace r = [Called (Rest (fetch_file_query fileId)) fetched] ∧ final r = s1).
Proof.
  intros Hfetch r. subst r. unfold deletePatientFile.
  change (Rest (Supabase.single _)) with (Rest (fetch_file_query fileId)).
  run_step. rewrite Hfetch. run_step.
  destruct (error fetched) as [e|] eqn:Herr; run_step.
  { split; [split|]; [intros [x Hx]; discriminate Hx|intros [? _]; discriminate|
                      intros [x Hx]; discriminate Hx]. }
  destruct (data fetched) as [| |b|n|str|l|o] eqn:Hdata; cbn [member nullish]; crunch; run_step;
    (split; [split|]);
    try (intros [x Hx]; discriminate Hx); try (intros [_ ?]; discriminate);
    try (intros _; eexists; reflexivity); try (intros _; split; reflexivity).
Qed.

Lemma deletePatientFile_raises_iff_witness :
  ∃ x, outcome (run Fixtures.mute (deletePatientFile "f1") tt) = Thrown x.
Proof.
  apply (deletePatientFile_raises_iff Fixtures.mute tt tt "f1"
           {| data := VNull; error := None |} eq_refl).
  split; reflexivity.
Defined.

(** Mapping the arrow function of getAppointments over fetched rows:
    it returns when every row carries a joined patient, and raises
    otherwise. *)
Lemma with_patient_name_joined_iff (apt : Value) :
  (joined apt = true → ∃ x, with_patient_name apt = Ret x)
  ∧ (joined apt = false → ∃ e, with_patient_name apt = Throw e).
Proof.
  destruct apt as [| |b|n|str|l|a]; cbn [joined];
    try (split; [discriminate|intros _; eexists; reflexivity]).
  unfold with_patient_name. cbn [member mbind Prog_bind bind].
  destruct (a !! "patients") as [pv|]; cbn [default];
    [|split; [discriminate|intros _; eexists; reflexivity]].
  destruct pv; cbn [nullish negb member bind];
    (split; [try discriminate; intros _; eexists; reflexivity
            |try discriminate; intros _; eexists; reflexivity]).
Qed.

Lemma for_each_with_patient_name_iff (l : list Value) :
  (forallb joined l = true → ∃ ys, for_each with_patient_name l = Ret ys)
  ∧ (forallb joined l = false → ∃ e, for_each with_patient_name l = Throw e).
Proof.
  induction l as [|x l [IHret IHthrow]]; cbn [forallb for_each].
  - split; [intros _; by eexists|discriminate].
  - destruct (with_patient_name_joined_iff x) as [Hret Hthrow].
    destruct (joined x); cbn [andb].
    + destruct (Hret eq_refl) as [y ->]. cbn [mbind Prog_bind bind]. split.
      * intros Hl. destruct (IHret Hl) as [ys ->]. by eexists.
      * intros Hl. destruct (IHthrow Hl) as [e ->]. by eexists.
    + destruct (Hthrow eq_refl) as [e ->]. split; [discriminate|intros _; by eexists].
Qed.

(** X6: getAppointments raises exactly when its request is answered
    without an error and with data it cannot map: a value that is not an
    array, or an array in which some row carries no joined patient
    ([apt.patients.name] is read without a guard).  Nothing is logged in
    that case. *)
Theorem getAppointments_raises_iff {S : Type} (env : Env S) (s s1 : S) (res : Response) :
  remote env (Rest (list_query ListAppointments)) s = (res, s1) →
  let r := run env getAppointments s in
  ((∃ x, outcome r = Thrown x) ↔ error res = None ∧ unflattenable (data res) = true)
  ∧ ((∃ x, outcome r = Thrown x) →
     trace r = [Called (Rest (list_query ListAppointments)) res]).
Proof.
  intros Hcall r. subst r. unfold getAppointments.
  change (Rest _) with (Rest (list_query ListAppointments)).
  run_step. rewrite Hcall. run_step.
  destruct (error res) as [e|] eqn:Herr; run_step.
  { split; [split|]; [intros [x Hx]; discriminate Hx|intros [? _]; discriminate|
                      intros [x Hx]; discriminate Hx]. }
  destruct (data res) as [| |b|n|str|l|o] eqn:Hdata;
    cbn [optional_map unflattenable mbind Prog_bind bind]; run_step;
    try (split; [split|];
         [intros [x Hx]; discriminate Hx|intros [_ ?]; discriminate
         |intros [x Hx]; discriminate Hx]);
    try (split; [split|]; [intros _; by split|intros _; by eexists|intros _; reflexivity]).
  destruct (for_each_with_patient_name_iff l) as [Hret Hthrow].
  destruct (forallb joined l); cbn [negb].
  - destruct (Hret eq_refl) as [ys ->]. run_step.
    split; [split|]; [intros [x Hx]; discriminate Hx|intros [_ ?]; discriminate
                     |intros [x Hx]; discriminate Hx].
  - destruct (Hthrow eq_refl) as [e ->]. run_step.
    split; [split|]; [intros _; by split|intros _; by eexists|intros _; reflexivity].
Qed.

Lemma getAppointments_raises_iff_witness :
  ∃ x, outcome (run Fixtures.unjoined getAppointments tt) = Thrown x.
Proof.
  apply (getAppointments_raises_iff Fixtures.unjoined tt tt
           {| data := VArr [VObj (Fixtures.appointment "a9" "p9" "2024-05-09")];
              error := None |} eq_refl).
  split; reflexivity.
Defined.

(** X7: the read operations (the four listings, getPatientById and
    getFileUrl) never ask the backend to change anything: whatever the
    environment answers, every request of their run is a select or the
    issue of a signed URL. *)
Theorem read_operations_only_read {S : Type} (env : Env S) (s : S) (op : Operation)
    (req : Request) (res : Response) :
  read_operation op = true →
  In (Called req res) (trace (run env (operation op) s)) →
  read_request req = true.
Proof.
  destruct op; try discriminate; intros _; unfold_operation; crunch; run_step;
    intros Hin; trace_inv Hin; reflexivity.
Qed.

Lemma read_operations_only_read_witness :
  read_request (Rest (get_patient_query "p1")) = true.
Proof.
  apply (read_operations_only_read Reference.env (Fixtures.clinic []) (GetPatientById "p1")
           (Rest (get_patient_query "p1")) (ok (VObj Fixtures.ana)) eq_refl).
  left. reflexivity.
Defined.

(** X8: when the metadata fetch of deletePatientFile fails, the function
    stops there: the error is logged, false is returned, and neither the
    blob removal nor the row deletion is requested. *)
Theorem deletePatientFile_stops_at_failed_fetch {S : Type} (env : Env S) (s s1 : S)
    (fileId : string) (fetched : Response) (e : Error) :
  remote env (Rest (fetch_file_query fileId)) s = (fetched, s1) →
  error fetched = Some e →
  run env (deletePatientFile fileId) s =
    mkRun (Returned (VBool false)) s1
      [Called (Rest (fetch_file_query fileId)) fetched; Logged "Error fetching file info:" e].
Proof.
  intros Hfetch Herr. unfold deletePatientFile.
  change (Rest (Supabase.single _)) with (Rest (fetch_file_query fileId)).
  run_step. rewrite Hfetch. run_step. rewrite Herr. reflexivity.
Qed.

Lemma deletePatientFile_stops_at_failed_fetch_witness :
  run Reference.env (deletePatientFile "f9") (Fixtures.clinic []) =
    mkRun (Returned (VBool false)) (Fixtures.clinic [])
      [Called (Rest (fetch_file_query "f9"))
         (fail "PGRST116: the result contains 0 or more than 1 rows");
       Logged "Error fetching file info:"
         (mkError "PGRST116: the result contains 0 or more than 1 rows")].
Proof.
  apply (deletePatientFile_stops_at_failed_fetch Reference.env (Fixtures.clinic [])
           (Fixtures.clinic []) "f9"
           (fail "PGRST116: the result contains 0 or more than 1 rows")
           (mkError "PGRST116: the result contains 0 or more than 1 rows"));
    reflexivity.
Defined.

(** ** More facts about the reference backend *)

(** One remote call against a known failure plan. *)
Lemma exec_planned (r : Request) (w : World) (f : option Error) (fs : list (option Error)) :
  faults w = f :: fs →
  exec r w = match f with
             | Some e => ({| data := VNull; error := Some e |}, set_faults fs w)
             | None => perform r (set_faults fs w)
             end.
Proof. intros Hf. unfold exec. rewrite Hf. by destruct f. Qed.

Lemma exec_unplanned (r : Request) (w : World) :
  faults w = [] → exec r w = perform r w.
Proof. intros Hf. unfold exec. by rewrite Hf. Qed.

(** What a read depends on: the tables. *)
Lemma referenced_tables (w w' : World) (rel : string) (r : Row) :
  tables w' = tables w → referenced w' rel r = referenced w rel r.
Proof. intros Ht. unfold referenced. by rewrite Ht. Qed.

Lemma select_single_fields (t id : string) (cols : list Supabase.SelectItem) :
  Supabase.from t |> Supabase.select cols |> Supabase.eq "id" id |> Supabase.single =
    {| Supabase.table := t; Supabase.action := Supabase.Select cols;
       Supabase.filters := [("id", id)]; Supabase.ordering := None;
       Supabase.returning := false; Supabase.single_row := true |}.
Proof. reflexivity. Qed.

(** A single-row select by id over columns that need no join, when
    exactly one row has the id, and when none has. *)
Lemma rest_select_single_one t id cols w pre row post :
  (∀ r, visible w cols r = true) →
  tables w !! t = Some (pre ++ row :: post) →
  row !! "id" = Some (VStr id) →
  Forall (λ r, r !! "id" ≠ Some (VStr id)) (pre ++ post) →
  rest (Supabase.from t |> Supabase.select cols |> Supabase.eq "id" id |> Supabase.single) w =
    (ok (VObj (project w cols row)), w).
Proof.
  intros Hvis Ht Hrow Hrest. unfold rest. rewrite select_single_fields.
  cbn [Supabase.table Supabase.action Supabase.filters Supabase.returning
       Supabase.single_row]. rewrite Ht. unfold select_rows.
  cbn [Supabase.filters Supabase.ordering sort_rows].
  rewrite (filter_only (λ r, matches [("id", id)] r && visible w cols r) pre post row).
  - reflexivity.
  - eapply Forall_impl; [exact Hrest|]. intros r Hr. cbv beta.
    apply matches_one_false in Hr. by rewrite Hr.
  - rewrite Hvis, andb_true_r. by apply matches_one.
Qed.

Lemma rest_select_single_none t id cols w rows :
  tables w !! t = Some rows →
  Forall (λ r, r !! "id" ≠ Some (VStr id)) rows →
  rest (Supabase.from t |> Supabase.select cols |> Supabase.eq "id" id |> Supabase.single) w =
    (fail "PGRST116: the result contains 0 or more than 1 rows", w).
Proof.
  intros Ht Hrows. unfold rest. rewrite select_single_fields.
  cbn [Supabase.table Supabase.action Supabase.filters Supabase.returning
       Supabase.single_row]. rewrite Ht. unfold select_rows.
  cbn [Supabase.filters Supabase.ordering sort_rows].
  assert (Hnone : List.filter (λ r, matches [("id", id)] r && visible w cols r) rows = []).
  { clear Ht. induction Hrows as [|r rows Hr _ IH]; [done|]. cbn [List.filter].
    apply matches_one_false in Hr. rewrite Hr. exact IH. }
  by rewrite Hnone.
Qed.

Lemma visible_all (w : World) (r : Row) : visible w [AllColumns] r = true.
Proof. reflexivity. Qed.

Lemma visible_column (w : World) (c : string) (r : Row) : visible w [Column c] r = true.
Proof. reflexivity. Qed.

(** The delete request of the gateway, answered by the service. *)
Lemma rest_delete t id w rows :
  tables w !! t = Some rows →
  rest (delete_query t id) w =
    (ok VNull,
     set_tables (<[t := List.filter (λ r, negb (matches [("id", id)] r)) rows]> (tables w)) w).
Proof.
  intros Ht. unfold rest. rewrite delete_query_fields.
  cbn [Supabase.table Supabase.action Supabase.filters Supabase.returning
       Supabase.single_row]. by rewrite Ht.
Qed.

Lemma filter_none_matching (id : string) (rows : list Row) :
  Forall (λ r, r !! "id" ≠ Some (VStr id)) rows →
  List.filter (λ r, negb (matches [("id", id)] r)) rows = rows.
Proof.
  induction 1 as [|r rows Hr _ IH]; [done|]. cbn [List.filter].
  apply matches_one_false in Hr. rewrite Hr. cbn [negb]. by rewrite IH.
Qed.

Lemma filter_leaves_none (id : string) (rows : list Row) :
  Forall (λ r, r !! "id" ≠ Some (VStr id))
         (List.filter (λ r, negb (matches [("id", id)] r)) rows).
Proof.
  apply Forall_forall. intros r Hr. apply list_elem_of_In, List.filter_In in Hr.
  destruct Hr as [_ Hr]. apply matches_one_false. by apply negb_true_iff in Hr.
Qed.

(** The update request of the gateway when no row has the id: the
    single-row answer is an error and nothing is changed. *)
Lemma rest_update_none t id (payload : Row) w rows :
  tables w !! t = Some rows →
  Forall (λ r, r !! "id" ≠ Some (VStr id)) rows →
  rest (update_query t id payload) w =
    (fail "PGRST116: the result contains 0 or more than 1 rows", w).
Proof.
  intros Ht Hrows. unfold rest. rewrite update_query_fields.
  cbn [Supabase.table Supabase.action Supabase.filters Supabase.returning
       Supabase.single_row]. rewrite Ht.
  assert (Hnone : List.filter (matches [("id", id)]) rows = []).
  { clear Ht. induction Hrows as [|r rows Hr _ IH]; [done|]. cbn [List.filter].
    apply matches_one_false in Hr. rewrite Hr. exact IH. }
  by rewrite Hnone.
Qed.

(** ** Reading and removing one row *)



(** What a delete operation does, for any environment: one delete
    request for the row with the given id, true when it is answered
    without error, false and a log entry otherwise. *)
Lemma delete_program_run {S : Type} (env : Env S) (c : Updatable) (s s' : S)
    (id : string) (res : Response) :
  remote env (Rest (delete_query (update_table c) id)) s = (res, s') →
  run env (delete_program c id) s =
    mkRun (Returned (VBool (match error res with Some _ => false | None => true end))) s'
      (Called (Rest (delete_query (update_table c) id)) res
       :: match error res with
          | Some e => [Logged (delete_label c) e]
          | None => []
          end).
Proof.
  intros Hcall.
  destruct c; unfold delete_program, deletePatient, deleteAppointment;
    match goal with
    | |- context [Rest ?q] => change (Rest q) with (Rest (delete_query "patients" id))
    | |- context [Rest ?q] => change (Rest q) with (Rest (delete_query "appointments" id))
    end;
    run_step; cbn [update_table] in Hcall; rewrite Hcall; run_step;
    by destruct (error res).
Qed.

(** X10: deletePatient and deleteAppointment return true exactly when
    the delete request is answered without an error (false, with the
    error logged, otherwise).  Against the reference backend a delete
    that reaches the service removes the rows with that id and keeps
    every other row in place; deleting an id that no row has still
    returns true and changes no row. *)
Theorem delete_removes_only_that_row (c : Updatable) (id : string) :
  (∀ (S : Type) (env : Env S) (s s' : S) (res : Response),
     remote env (Rest (delete_query (update_table c) id)) s = (res, s') →
     (outcome (run env (delete_program c id) s) = Returned (VBool true) ↔ error res = None)
     ∧ (∀ e, error res = Some e →
          outcome (run env (delete_program c id) s) = Returned (VBool false)
          ∧ logged (trace (run env (delete_program c id) s)) e))
  ∧ (∀ (w : World) (rows : list Row),
     next_fault w = None →
     tables w !! update_table c = Some rows →
     let r := run Reference.env (delete_program c id) w in
     outcome r = Returned (VBool true)
     ∧ tables (final r) !! update_table c =
         Some (List.filter (λ row, negb (value_is_string (column "id" row) id)) rows)
     ∧ Forall (λ row, row !! "id" ≠ Some (VStr id)) (rows_of (update_table c) (final r))
     ∧ (Forall (λ row, row !! "id" ≠ Some (VStr id)) rows →
        tables (final r) !! update_table c = Some rows)).
Proof.
  split.
  - intros S env s s' res Hcall. rewrite (delete_program_run env c s s' id res Hcall).
    cbn [outcome trace]. split.
    + destruct (error res); split; try done; discriminate.
    + intros e ->. split; [reflexivity|]. exists (delete_label c). right; left; reflexivity.
  - intros w rows Hfault Ht r.
    assert (Hcall : remote Reference.env (Rest (delete_query (update_table c) id)) w =
              (ok VNull,
               set_tables (<[update_table c :=
                               List.filter (λ r, negb (matches [("id", id)] r)) rows]>
                             (tables w)) (set_faults (tail (faults w)) w))).
    { cbn [remote Reference.env]. rewrite (exec_reaches _ w Hfault). cbn [perform].
      by rewrite (rest_delete (update_table c) id (set_faults (tail (faults w)) w) rows). }
    subst r. rewrite (delete_program_run Reference.env c w _ id _ Hcall).
    cbn [outcome final error ok tables set_tables]. split; [reflexivity|].
    assert (Hsame : List.filter (λ row, negb (value_is_string (column "id" row) id)) rows
                    = List.filter (λ r, negb (matches [("id", id)] r)) rows).
    { apply List.filter_ext. intros row. cbn [matches forallb fst snd].
      by rewrite andb_true_r. }
    split; [by rewrite lookup_insert_eq, Hsame|]. split.
    + unfold rows_of. cbn [tables set_tables]. rewrite lookup_insert_eq. cbn [default].
      apply filter_leaves_none.
    + intros Hnone. by rewrite lookup_insert_eq, filter_none_matching.
Qed.

Lemma delete_removes_only_that_row_witness :
  let r := run Reference.env (deleteAppointment "a2") (Fixtures.clinic []) in
  outcome r = Returned (VBool true)
  ∧ tables (final r) !! "appointments" =
      Some [Fixtures.appointment "a1" "p1" "2024-05-03";
            Fixtures.appointment "a3" "p1" "2024-05-02"]
  ∧ tables (final (run Reference.env (deleteAppointment "a9") (Fixtures.clinic [])))
      !! "appointments" = tables (Fixtures.clinic []) !! "appointments"
  ∧ outcome (run Reference.env (deleteAppointment "a2") (Fixtures.clinic [Some Fixtures.boom]))
    = Returned (VBool false).
Proof.
  intros r.
  destruct (delete_removes_only_that_row UAppointment "a2") as [Hany Href].
  destruct (Href (Fixtures.clinic []) _ eq_refl eq_refl) as (Hout & Hrows & _ & _).
  destruct (delete_removes_only_that_row UAppointment "a9") as [_ Href9].
  destruct (Href9 (Fixtures.clinic []) _ eq_refl eq_refl) as (_ & _ & _ & Hsame).
  destruct (Hany World Reference.env (Fixtures.clinic [Some Fixtures.boom]) (Fixtures.clinic [])
              {| data := VNull; error := Some Fixtures.boom |} eq_refl) as [_ Hfail].
  split; [exact Hout|]. split; [exact (eq_trans Hrows eq_refl)|]. split.
  - apply Hsame. repeat constructor; discriminate.
  - exact (proj1 (Hfail Fixtures.boom eq_refl)).
Defined.

(** X11: after a deletePatient that reaches the service, getPatientById
    for the same id finds nothing: it returns null. *)
Theorem deletePatient_then_getPatientById (id : string) (w : World) (rows : list Row) :
  faults w = [] →
  tables w !! "patients" = Some rows →
  let deleted := run Reference.env (deletePatient id) w in
  outcome deleted = Returned (VBool true)
  ∧ outcome (run Reference.env (getPatientById id) (final deleted)) = Returned VNull.
Proof.
  intros Hf Ht deleted.
  assert (Hcall : remote Reference.env (Rest (delete_query "patients" id)) w =
            (ok VNull,
             set_tables (<["patients" := List.filter (λ r, negb (matches [("id", id)] r)) rows]>
                           (tables w)) w)).
  { cbn [remote Reference.env]. rewrite (exec_unplanned _ w Hf). cbn [perform].
    by rewrite (rest_delete "patients" id _ rows). }
  subst deleted. change (deletePatient id) with (delete_program UPatient id).
  rewrite (delete_program_run Reference.env UPatient w _ id _ Hcall).
  cbn [outcome final error ok]. split; [reflexivity|].
  unfold getPatientById. run_step. cbn [remote Reference.env].
  rewrite exec_unplanned by exact Hf. cbn [perform].
  rewrite (rest_select_single_none "patients" id [AllColumns] _
             (List.filter (λ r, negb (matches [("id", id)] r)) rows)).
  - reflexivity.
  - cbn [tables set_tables]. apply lookup_insert_eq.
  - apply filter_leaves_none.
Qed.

Lemma deletePatient_then_getPatientById_witness :
  outcome (run Reference.env (getPatientById "p1")
             (final (run Reference.env (deletePatient "p1") (Fixtures.clinic [])))) =
    Returned VNull.
Proof.
  exact (proj2 (deletePatient_then_getPatientById "p1" (Fixtures.clinic [])
                  [Fixtures.ana; Fixtures.luis] eq_refl eq_refl)).
Defined.

(** X12: updatePatient and updateAppointment for an id that no row has
    return null: the single-row answer is an error, which is logged, and
    no row of the collection is changed. *)
Theorem update_of_missing_id_changes_nothing (c : Updatable) (id : string) (updates : Row)
    (w : World) (rows : list Row) :
  next_fault w = None →
  tables w !! update_table c = Some rows →
  Forall (λ r, r !! "id" ≠ Some (VStr id)) rows →
  let r := run Reference.env (update_program c id updates) w in
  outcome r = Returned VNull
  ∧ tables (final r) = tables w
  ∧ logged (trace r) (mkError "PGRST116: the result contains 0 or more than 1 rows").
Proof.
  intros Hfault Ht Hrows r.
  assert (Hcall : remote Reference.env
                    (Rest (update_query (update_table c) id (stamped updates (clock w)))) w
                  = (fail "PGRST116: the result contains 0 or more than 1 rows",
                     set_faults (tail (faults w)) w)).
  { cbn [remote Reference.env]. rewrite (exec_reaches _ w Hfault). cbn [perform].
    by rewrite (rest_update_none (update_table c) id _
                  (set_faults (tail (faults w)) w) rows). }
  subst r.
  rewrite (update_program_run Reference.env c w w _ id updates (clock w) _ eq_refl Hcall).
  cbn [outcome final trace error fail tables set_faults].
  split; [reflexivity|]. split; [reflexivity|].
  exists (update_label c). right; right; left; reflexivity.
Qed.

Lemma update_of_missing_id_changes_nothing_witness :
  let r := run Reference.env (updateAppointment "a9" (<["time" := VStr "11:00"]> ∅))
             (Fixtures.clinic []) in
  outcome r = Returned VNull ∧ tables (final r) = tables (Fixtures.clinic []).
Proof.
  intros r.
  destruct (update_of_missing_id_changes_nothing UAppointment "a9" (<["time" := VStr "11:00"]> ∅)
              (Fixtures.clinic []) _ eq_refl eq_refl) as (Hout & Htables & _).
  { repeat constructor; discriminate. }
  split; [exact Hout|exact Htables].
Defined.

(** ** Creating a row and reading it back *)

(** X13: createPatient followed by getPatientById round-trips.  When the
    backend gives the new row an id that no patient has yet, the row
    createPatient returns carries every field the caller supplied
    (undefined ones apart), and getPatientById for its id returns that
    same row. *)
Theorem createPatient_then_getPatientById (patient : Row) (w : World) (rows : list Row)
    (id : string) :
  faults w = [] →
  tables w !! "patients" = Some rows →
  patient !! "id" = None →
  generated "patients" w !! "id" = Some (VStr id) →
  Forall (λ r, r !! "id" ≠ Some (VStr id)) rows →
  let created := run Reference.env (createPatient patient) w in
  ∃ row,
    outcome created = Returned (VObj row)
    ∧ row !! "id" = Some (VStr id)
    ∧ (∀ f v, patient !! f = Some v → v ≠ VUndef → row !! f = Some v)
    ∧ rows_of "patients" (final created) = rows ++ [row]
    ∧ outcome (run Reference.env (getPatientById id) (final created)) = Returned (VObj row).
Proof.
  intros Hf Ht Hnoid Hid Hfresh created.
  set (row := json_object patient ∪ generated "patients" w).
  assert (Hcall : remote Reference.env (Rest (insert_query "patients" patient)) w =
            (ok (VObj row),
             set_tables (<["patients" := rows ++ [row]]> (tables w)) (bump w))).
  { cbn [remote Reference.env]. rewrite (exec_unplanned _ w Hf). cbn [perform].
    by rewrite (rest_insert_one "patients" patient w rows). }
  assert (Hrowid : row !! "id" = Some (VStr id)).
  { unfold row. rewrite lookup_union_r by by apply json_object_lookup_None. exact Hid. }
  exists row. subst created. unfold createPatient.
  change (Rest _) with (Rest (insert_query "patients" patient)).
  run_step. rewrite Hcall. run_step. cbn [error ok data]. run_step.
  split; [reflexivity|]. split; [exact Hrowid|]. split.
  { intros f v Hv Hdef. unfold row. by apply lookup_union_Some_l, json_object_lookup. }
  split.
  { unfold rows_of. cbn [tables set_tables]. by rewrite lookup_insert_eq. }
  unfold getPatientById. run_step. cbn [remote Reference.env].
  rewrite exec_unplanned by exact Hf. cbn [perform].
  rewrite (rest_select_single_one "patients" id [AllColumns] _ rows row []
             (visible_all _)).
  - rewrite project_all. reflexivity.
  - cbn [tables set_tables]. apply lookup_insert_eq.
  - exact Hrowid.
  - by rewrite app_nil_r.
Qed.

Lemma createPatient_then_getPatientById_witness :
  let patient : Row := <["name" := VStr "Eva Paz"]> (<["cedula" := VStr "003"]> ∅) in
  let created := run Reference.env (createPatient patient) (Fixtures.clinic []) in
  ∃ row,
    outcome created = Returned (VObj row)
    ∧ row !! "id" = Some (VStr "id-7")
    ∧ row !! "name" = Some (VStr "Eva Paz")
    ∧ outcome (run Reference.env (getPatientById "id-7") (final created)) = Returned (VObj row).
Proof.
  intros patient created.
  destruct (createPatient_then_getPatientById patient (Fixtures.clinic [])
              [Fixtures.ana; Fixtures.luis] "id-7" eq_refl eq_refl eq_refl eq_refl)
    as (row & Hout & Hid & Hfields & _ & Hget).
  { repeat constructor; discriminate. }
  exists row. split; [exact Hout|]. split; [exact Hid|]. split; [|exact Hget].
  apply Hfields; [reflexivity|discriminate].
Defined.

(** ** The inconsistency windows of the two-step file operations *)

(** X14: when the blob upload of uploadPatientFile succeeds and the
    metadata insert then fails, the function logs the insert error and
    returns null without asking for the blob to be removed: the blob
    stays in the bucket under its key and no metadata row exists for
    it. *)
Theorem uploadPatientFile_failed_insert_leaves_blob (patientId : string) (file : File)
    (w : World) (objs : gmap string File) (e : Error) (fs : list (option Error)) :
  faults w = None :: Some e :: fs →
  buckets w !! "patient-files" = Some objs →
  objs !! fileName patientId (clock w) file = None →
  let key := fileName patientId (clock w) file in
  let r := run Reference.env (uploadPatientFile patientId file) w in
  outcome r = Returned VNull
  ∧ trace r =
      [Clock (clock w);
       Called (StorageUpload "patient-files" key file)
         (ok (VObj (<["path" := VStr key]>
                    (<["fullPath" := VStr ("patient-files" +:+ "/" +:+ key)]> ∅))));
       Called (Rest (insert_query "patient_files" (fileData patientId file (VStr key))))
         {| data := VNull; error := Some e |};
       Logged "Error saving file metadata:" e]
  ∧ buckets (final r) !! "patient-files" = Some (<[key := file]> objs)
  ∧ tables (final r) = tables w.
Proof.
  intros Hf Hb Hfree key r. subst r key.
  unfold uploadPatientFile. run_step. cbn [clock_read remote Reference.env].
  rewrite (exec_planned _ w None (Some e :: fs) Hf). cbn [perform storage].
  cbn [buckets set_faults]. rewrite Hb, Hfree. run_step. cbn [error ok data member].
  rewrite lookup_insert_eq. cbn [default]. run_step.
  change (Rest _) with
    (Rest (insert_query "patient_files"
             (fileData patientId file (VStr (fileName patientId (clock w) file))))).
  erewrite (exec_planned _ _ (Some e) fs) by reflexivity. run_step.
  cbn [final buckets tables set_buckets set_faults].
  split; [reflexivity|]. split; [reflexivity|]. split; [apply lookup_insert_eq|reflexivity].
Qed.

Lemma uploadPatientFile_failed_insert_leaves_blob_witness :
  let r := run Reference.env (uploadPatientFile "p1" Fixtures.rx)
             (Fixtures.clinic [None; Some Fixtures.boom]) in
  outcome r = Returned VNull
  ∧ (buckets (final r) !! "patient-files") ≫= (λ objs, objs !! "p1/1700000000123-rx.png")
    = Some Fixtures.rx
  ∧ tables (final r) = tables (Fixtures.clinic []).
Proof.
  intros r.
  destruct (uploadPatientFile_failed_insert_leaves_blob "p1" Fixtures.rx
              (Fixtures.clinic [None; Some Fixtures.boom]) _ Fixtures.boom []
              eq_refl eq_refl eq_refl) as (Hout & _ & Hblob & Htables).
  split; [exact Hout|]. split; [|exact Htables].
  exact (eq_trans (f_equal (λ o, o ≫= (λ objs : gmap string File,
                                         objs !! "p1/1700000000123-rx.png")) Hblob) eq_refl).
Defined.

(** X15: when deletePatientFile has removed the blob and the deletion of
    the metadata row then fails, it returns false and logs that error;
    the blob is gone from the bucket while the metadata row is still in
    the collection, pointing at nothing. *)
Theorem deletePatientFile_failed_delete_leaves_row (fileId path : string) (w : World)
    (pre post : list Row) (row : Row) (objs : gmap string File) (e : Error)
    (fs : list (option Error)) :
  faults w = None :: None :: Some e :: fs →
  tables w !! "patient_files" = Some (pre ++ row :: post) →
  row !! "id" = Some (VStr fileId) →
  Forall (λ r, r !! "id" ≠ Some (VStr fileId)) (pre ++ post) →
  row !! "storage_path" = Some (VStr path) →
  buckets w !! "patient-files" = Some objs →
  let r := run Reference.env (deletePatientFile fileId) w in
  outcome r = Returned (VBool false)
  ∧ logged (trace r) e
  ∧ tables (final r) = tables w
  ∧ buckets (final r) !! "patient-files" = Some (base.delete path objs).
Proof.
  intros Hf Ht Hrow Hrest Hpath Hb r. subst r.
  unfold deletePatientFile.
  change (Rest (Supabase.single _)) with (Rest (fetch_file_query fileId)).
  change (Rest (Supabase.eq _ _ _)) with (Rest (delete_query "patient_files" fileId)).
  run_step. cbn [remote Reference.env].
  rewrite (exec_planned _ w None (None :: Some e :: fs) Hf). cbn [perform].
  rewrite (rest_select_single_one "patient_files" fileId [Column "storage_path"]
             (set_faults (None :: Some e :: fs) w) pre row post
             (visible_column _ _) Ht Hrow Hrest
           : rest (fetch_file_query fileId) (set_faults (None :: Some e :: fs) w) = _).
  run_step. cbn [error ok data member project foldl project_item].
  rewrite lookup_insert_eq. cbn [default]. unfold column. rewrite Hpath. cbn [default].
  run_step. erewrite (exec_planned _ _ None (Some e :: fs)) by reflexivity.
  cbn [perform storage buckets set_faults]. rewrite Hb. run_step. cbn [error ok].
  run_step. erewrite (exec_planned _ _ (Some e) fs) by reflexivity. run_step.
  cbn [error]. run_step.
  cbn [final tables buckets set_buckets set_faults foldr remove_one].
  split; [reflexivity|]. split.
  - exists "Error deleting file metadata:". do 3 right. left. reflexivity.
  - split; [reflexivity|]. apply lookup_insert_eq.
Qed.

Lemma deletePatientFile_failed_delete_leaves_row_witness :
  let r := run Reference.env (deletePatientFile "f1")
             (Fixtures.clinic [None; None; Some Fixtures.boom]) in
  outcome r = Returned (VBool false)
  ∧ tables (final r) = tables (Fixtures.clinic [])
  ∧ (buckets (final r) !! "patient-files") ≫= (λ objs, objs !! "p1/1-rx.png") = None.
Proof.
  intros r.
  destruct (deletePatientFile_failed_delete_leaves_row "f1" "p1/1-rx.png"
              (Fixtures.clinic [None; None; Some Fixtures.boom]) []
              [Fixtures.file_row "f2" "p1" "p1/2-rx.png" "2024-04-02T00:00:00.000Z"]
              (Fixtures.file_row "f1" "p1" "p1/1-rx.png" "2024-04-01T00:00:00.000Z")
              (<["p1/1-rx.png" := Fixtures.rx]> (<["p1/2-rx.png" := Fixtures.rx]> ∅))
              Fixtures.boom [] eq_refl eq_refl eq_refl)
    as (Hout & _ & Htables & Hblob).
  { repeat constructor; discriminate. }
  { reflexivity. }
  { reflexivity. }
  split; [exact Hout|]. split; [exact Htables|].
  exact (eq_trans (f_equal (λ o, o ≫= (λ objs : gmap string File, objs !! "p1/1-rx.png"))
                     Hblob) eq_refl).
Defined.

(** ** What the listings contain *)

Lemma project_tables (w w' : World) (cols : list Supabase.SelectItem) (r : Row) :
  tables w' = tables w → project w' cols r = project w cols r.
Proof.
  intros Ht. unfold project. generalize (∅ : Row).
  induction cols as [|it cols IH]; intros acc; [done|]. cbn [foldl]. rewrite IH. f_equal.
  destruct it; cbn [project_item]; [done..|]. by rewrite (referenced_tables w w' _ _ Ht).
Qed.



(** X17: getAppointments lists exactly the appointments whose patient
    exists (the join is an inner one): each such appointment once, with
    the patient embedded and the name flattened, and no appointment
    whose patient_id matches no patient. *)
Theorem getAppointments_lists_those_with_patient (w : World) :
  succeeded (trace (run Reference.env getAppointments w)) (Rest (list_query ListAppointments)) →
  ∃ rows0 kept,
    tables w !! "appointments" = Some rows0
    ∧ kept ≡ₚ List.filter (has_patient w) rows0
    ∧ outcome (run Reference.env getAppointments w) =
        Returned (VArr (VObj <$> (listed_appointment w <$> kept))).
Proof.
  intros Hok. destruct (getAppointments_reference w Hok) as (w' & rows0 & Hw' & Ht & Hout).
  exists rows0,
    (merge_sort (row_le "date")
       (List.filter (λ r, matches [] r && visible w' appointment_columns r) rows0)).
  split; [exact Ht|]. split.
  - rewrite merge_sort_Permutation.
    assert (Hext : List.filter (λ r, matches [] r && visible w' appointment_columns r) rows0
                   = List.filter (has_patient w) rows0).
    { apply List.filter_ext. intros r.
      cbn [matches forallb visible appointment_columns andb]. unfold has_patient.
      by rewrite andb_true_r, (referenced_tables w w' _ _ Hw'). }
    by rewrite Hext.
  - rewrite Hout. unfold joined_appointments. do 3 f_equal.
    rewrite <- list_fmap_compose. apply list_fmap_ext. intros i r _. cbn [compose].
    unfold listed_appointment. by rewrite (project_tables w w' _ _ Hw').
Qed.

Lemma getAppointments_lists_those_with_patient_witness :
  ∃ kept,
    outcome (run Reference.env getAppointments Fixtures.clinic_with_stray) =
      Returned (VArr (VObj <$> (listed_appointment Fixtures.clinic_with_stray <$> kept)))
    ∧ length kept = 2%nat
    ∧ length (rows_of "appointments" Fixtures.clinic_with_stray) = 3%nat.
Proof.
  destruct (getAppointments_lists_those_with_patient Fixtures.clinic_with_stray)
    as (rows0 & kept & Ht & Hperm & Hout).
  { eexists. split; [left; reflexivity|reflexivity]. }
  exists kept. split; [exact Hout|]. split; [|reflexivity].
  assert (Hrows0 : Some rows0 =
            Some [Fixtures.appointment "a1" "p1" "2024-05-03";
                  Fixtures.appointment "a4" "p9" "2024-05-02";
                  Fixtures.appointment "a2" "p2" "2024-05-01"])
    by (rewrite <- Ht; reflexivity).
  injection Hrows0 as ->.
  exact (eq_trans (Permutation_length Hperm) eq_refl).
Defined.

(** ** Creating, and the calls whose error is not looked at *)

(** X18: createPatient and createAppointment send the caller's object as
    it is, alone in the inserted array (nothing is stamped or added on
    the way), and return the row of the answer, or null with the error
    logged when the insert fails. *)
Theorem create_sends_the_object_as_given {S : Type} (env : Env S) (c : Updatable)
    (s s' : S) (object : Row) (res : Response) :
  remote env (Rest (insert_query (update_table c) object)) s = (res, s') →
  run env (create_program c object) s =
    mkRun (Returned (match error res with Some _ => VNull | None => data res end)) s'
      (Called (Rest (insert_query (update_table c) object)) res
       :: match error res with
          | Some e => [Logged (create_label c) e]
          | None => []
          end).
Proof.
  intros Hcall.
  destruct c; unfold create_program, createPatient, createAppointment;
    match goal with
    | |- context [Rest ?q] => change (Rest q) with (Rest (insert_query "patients" object))
    | |- context [Rest ?q] => change (Rest q) with (Rest (insert_query "appointments" object))
    end;
    run_step; cbn [update_table] in Hcall; rewrite Hcall; run_step;
    by destruct (error res).
Qed.

Lemma create_sends_the_object_as_given_witness :
  run Reference.env (createAppointment (Fixtures.appointment "a7" "p1" "2024-07-01"))
    (Fixtures.clinic [Some Fixtures.boom]) =
    mkRun (Returned VNull) (Fixtures.clinic [])
      [Called (Rest (insert_query "appointments" (Fixtures.appointment "a7" "p1" "2024-07-01")))
         {| data := VNull; error := Some Fixtures.boom |};
       Logged "Error creating appointment:" Fixtures.boom].
Proof.
  apply (create_sends_the_object_as_given Reference.env UAppointment
           (Fixtures.clinic [Some Fixtures.boom]) (Fixtures.clinic [])
           (Fixtures.appointment "a7" "p1" "2024-07-01")
           {| data := VNull; error := Some Fixtures.boom |}).
  reflexivity.
Defined.

(** X19: the two calls whose error the code never looks at are silent.
    getFileUrl writes nothing to the console whatever its request is
    answered; and the only error addMedicalHistory ever logs is the one
    of its insert, never the one of the treatments increment. *)
Theorem unchecked_errors_are_silent :
  (∀ (S : Type) (env : Env S) (s : S) (storagePath : string) (e : Error),
     ¬ logged (trace (run env (getFileUrl storagePath) s)) e)
  ∧ (∀ (S : Type) (env : Env S) (s : S) (history : Row) (label : string) (e : Error),
     In (Logged label e) (trace (run env (addMedicalHistory history) s)) →
     label = "Error adding medical history:"
     ∧ ∃ ins, trace (run env (addMedicalHistory history) s) =
                [Called (Rest (insert_query "medical_history" history)) ins; Logged label e]
              ∧ error ins = Some e).
Proof.
  split.
  - intros S env s storagePath e [label Hin]. revert Hin.
    unfold getFileUrl. crunch. run_step. intros Hin. log_inv Hin.
  - intros S env s history label e. unfold addMedicalHistory.
    change (Rest _) with (Rest (insert_query "medical_history" history)).
    crunch; run_step; intros Hin; log_inv Hin.
    split; [reflexivity|]. eexists. split; [reflexivity|assumption].
Qed.

Lemma unchecked_errors_are_silent_witness :
  ∃ ins,
    trace (run Reference.env
             (addMedicalHistory (<["patient_id" := VStr "p1"]> ∅))
             (Fixtures.clinic [Some Fixtures.boom])) =
      [Called (Rest (insert_query "medical_history" (<["patient_id" := VStr "p1"]> ∅))) ins;
       Logged "Error adding medical history:" Fixtures.boom]
    ∧ error ins = Some Fixtures.boom.
Proof.
  destruct unchecked_errors_are_silent as [_ Hadd].
  destruct (Hadd World Reference.env (Fixtures.clinic [Some Fixtures.boom])
              (<["patient_id" := VStr "p1"]> ∅) "Error adding medical history:" Fixtures.boom)
    as (_ & ins & Htrace & Herr).
  { right; left; reflexivity. }
  exists ins. split; [exact Htrace|exact Herr].
Defined.

(** ** Storage keys and the life of a file *)

(** X20: the storage key is made of the patient id, the clock reading
    and the file name only, and the upload does not ask to overwrite.
    When the bucket already holds a blob under that key (same patient,
    same file name, same millisecond), uploadPatientFile logs the
    storage error and returns null; the blob already stored and the
    tables stay as they were. *)
Theorem uploadPatientFile_key_collision (patientId : string) (file old : File) (w : World)
    (objs : gmap string File) :
  next_fault w = None →
  buckets w !! "patient-files" = Some objs →
  objs !! fileName patientId (clock w) file = Some old →
  let r := run Reference.env (uploadPatientFile patientId file) w in
  outcome r = Returned VNull
  ∧ logged (trace r) (mkError "The resource already exists")
  ∧ buckets (final r) = buckets w
  ∧ tables (final r) = tables w.
Proof.
  intros Hfault Hb Hold r. subst r.
  unfold uploadPatientFile. run_step. cbn [clock_read remote Reference.env].
  rewrite (exec_reaches _ w Hfault). cbn [perform storage buckets set_faults].
  rewrite Hb, Hold. run_step. cbn [error fail]. run_step.
  split; [reflexivity|]. split; [|split; reflexivity].
  exists "Error uploading file:". right; right; left; reflexivity.
Qed.

Lemma uploadPatientFile_key_collision_witness :
  let once := final (run Reference.env (uploadPatientFile "p1" Fixtures.rx) (Fixtures.clinic [])) in
  let twice := run Reference.env (uploadPatientFile "p1" Fixtures.rx) once in
  outcome twice = Returned VNull
  ∧ buckets (final twice) = buckets once
  ∧ tables (final twice) = tables once.
Proof.
  intros once twice.
  destruct (uploadPatientFile_key_collision "p1" Fixtures.rx Fixtures.rx once
              (<["p1/1700000000123-rx.png" := Fixtures.rx]>
                 (<["p1/1-rx.png" := Fixtures.rx]> (<["p1/2-rx.png" := Fixtures.rx]> ∅)))
              eq_refl eq_refl eq_refl) as (Hout & _ & Hbuckets & Htables).
  split; [exact Hout|]. split; [exact Hbuckets|exact Htables].
Defined.

Lemma filter_drops_only (id : string) (rows : list Row) (row : Row) :
  Forall (λ r, r !! "id" ≠ Some (VStr id)) rows →
  row !! "id" = Some (VStr id) →
  List.filter (λ r, negb (matches [("id", id)] r)) (rows ++ [row]) = rows.
Proof.
  intros Hrows Hrow. rewrite List.filter_app, filter_none_matching by done.
  cbn [List.filter]. apply matches_one in Hrow. rewrite Hrow. cbn [negb].
  apply app_nil_r.
Qed.

(** X21: a file that is uploaded and then deleted leaves nothing behind.
    After a successful uploadPatientFile the returned metadata row
    points at the stored blob, getFileUrl for that path returns a URL,
    and deletePatientFile for the row's id returns true and puts both the
    bucket and the collection back to what they were before the
    upload. *)
Theorem upload_then_delete_restores (patientId : string) (file : File) (w : World)
    (objs : gmap string File) (rows : list Row) (id : string) :
  faults w = [] →
  buckets w !! "patient-files" = Some objs →
  objs !! fileName patientId (clock w) file = None →
  tables w !! "patient_files" = Some rows →
  generated "patient_files" w !! "id" = Some (VStr id) →
  Forall (λ r, r !! "id" ≠ Some (VStr id)) rows →
  let key := fileName patientId (clock w) file in
  let uploaded := run Reference.env (uploadPatientFile patientId file) w in
  let deleted := run Reference.env (deletePatientFile id) (final uploaded) in
  ∃ row,
    outcome uploaded = Returned (VObj row)
    ∧ row !! "id" = Some (VStr id)
    ∧ row !! "storage_path" = Some (VStr key)
    ∧ (∃ url, outcome (run Reference.env (getFileUrl key) (final uploaded))
              = Returned (VStr url))
    ∧ outcome deleted = Returned (VBool true)
    ∧ tables (final deleted) !! "patient_files" = Some rows
    ∧ buckets (final deleted) !! "patient-files" = Some objs.
Proof.
  intros Hf Hb Hfree Ht Hid Hfresh key uploaded deleted.
  change (objs !! key = None) in Hfree.
  set (row := json_object (fileData patientId file (VStr key)) ∪ generated "patient_files" w).
  set (w1 := set_buckets (<["patient-files" := <[key := file]> objs]> (buckets w)) w).
  set (w2 := set_tables (<["patient_files" := rows ++ [row]]> (tables w1)) (bump w1)).
  assert (Hrowid : row !! "id" = Some (VStr id)).
  { unfold row. rewrite lookup_union_r; [exact Hid|].
    apply json_object_lookup_None. unfold fileData. by simplify_map_eq. }
  assert (Hrowpath : row !! "storage_path" = Some (VStr key)).
  { unfold row. apply lookup_union_Some_l, json_object_lookup; [|done].
    unfold fileData. by simplify_map_eq. }
  assert (Hup : run Reference.env (uploadPatientFile patientId file) w =
            mkRun (Returned (VObj row)) w2
              [Clock (clock w);
               Called (StorageUpload "patient-files" key file)
                 (ok (VObj (<["path" := VStr key]>
                            (<["fullPath" := VStr ("patient-files" +:+ "/" +:+ key)]> ∅))));
               Called (Rest (insert_query "patient_files" (fileData patientId file (VStr key))))
                 (ok (VObj row))]).
  { unfold uploadPatientFile. run_step. cbn [clock_read remote Reference.env].
    rewrite (exec_unplanned _ w Hf). cbn [perform storage]. fold key.
    rewrite Hb, Hfree. fold w1. run_step. cbn [error ok data member].
    rewrite lookup_insert_eq. cbn [default]. run_step.
    change (Rest _) with
      (Rest (insert_query "patient_files" (fileData patientId file (VStr key)))).
    rewrite (exec_unplanned _ w1 Hf). cbn [perform].
    rewrite (rest_insert_one "patient_files" (fileData patientId file (VStr key)) w1 rows Ht).
    fold w2. run_step. cbn [error ok data]. run_step. reflexivity. }
  exists row. subst uploaded deleted. rewrite Hup. cbn [outcome final].
  split; [reflexivity|]. split; [exact Hrowid|]. split; [exact Hrowpath|]. split.
  { unfold getFileUrl. run_step. cbn [remote Reference.env].
    rewrite (exec_unplanned _ w2 Hf). cbn [perform storage].
    cbn [buckets w2 w1 set_tables set_buckets bump]. rewrite lookup_insert_eq.
    rewrite lookup_insert_eq. run_step. cbn [data ok optional_member].
    rewrite lookup_insert_eq. eexists. reflexivity. }
  unfold deletePatientFile.
  change (Rest (Supabase.single _)) with (Rest (fetch_file_query id)).
  change (Rest (Supabase.eq _ _ _)) with (Rest (delete_query "patient_files" id)).
  run_step. cbn [remote Reference.env].
  rewrite (exec_unplanned _ w2 Hf). cbn [perform].
  rewrite (rest_select_single_one "patient_files" id [Column "storage_path"] w2 rows row []
             (visible_column _ _) (lookup_insert_eq _ _ _) Hrowid
             ltac:(by rewrite app_nil_r)
           : rest (fetch_file_query id) w2 = _).
  run_step. cbn [error ok data member project foldl project_item].
  rewrite lookup_insert_eq. cbn [default]. unfold column. rewrite Hrowpath. cbn [default].
  run_step. rewrite (exec_unplanned _ w2 Hf). cbn [perform storage].
  cbn [buckets w2 w1 set_tables set_buckets bump]. rewrite lookup_insert_eq.
  run_step. cbn [error ok]. run_step.
  erewrite exec_unplanned by exact Hf. cbn [perform].
  erewrite (rest_delete "patient_files" id _ (rows ++ [row]))
    by (cbn [tables set_buckets w2 set_tables]; apply lookup_insert_eq).
  run_step. cbn [error ok]. run_step.
  cbn [final tables buckets set_tables set_buckets foldr remove_one].
  split; [reflexivity|]. split.
  - rewrite lookup_insert_eq. f_equal. by apply filter_drops_only.
  - rewrite lookup_insert_eq. f_equal. by apply delete_insert_id.
Qed.

Lemma upload_then_delete_restores_witness :
  let uploaded := run Reference.env (uploadPatientFile "p2" Fixtures.rx) (Fixtures.clinic []) in
  let deleted := run Reference.env (deletePatientFile "id-7") (final uploaded) in
  outcome deleted = Returned (VBool true)
  ∧ tables (final deleted) !! "patient_files" = tables (Fixtures.clinic []) !! "patient_files"
  ∧ buckets (final deleted) !! "patient-files" = buckets (Fixtures.clinic []) !! "patient-files".
Proof.
  intros uploaded deleted.
  destruct (upload_then_delete_restores "p2" Fixtures.rx (Fixtures.clinic [])
              (<["p1/1-rx.png" := Fixtures.rx]> (<["p1/2-rx.png" := Fixtures.rx]> ∅))
              [Fixtures.file_row "f1" "p1" "p1/1-rx.png" "2024-04-01T00:00:00.000Z";
               Fixtures.file_row "f2" "p1" "p1/2-rx.png" "2024-04-02T00:00:00.000Z"]
              "id-7" eq_refl eq_refl eq_refl eq_refl eq_refl)
    as (row & _ & _ & _ & _ & Hout & Htables & Hbuckets).
  { repeat constructor; discriminate. }
  split; [exact Hout|]. split; [exact Htables|exact Hbuckets].
Defined.

(** ** The result of deleting a file *)







(** ** The rows a listing returns *)

(** The three listings without a join, for any environment: on an answer
    without error the result is the answer's data itself (the empty array
    when there is none). *)
Lemma plain_list_run {S : Type} (env : Env S) (op : ListOp) (s s' : S) (res : Response) :
  op ≠ ListAppointments →
  remote env (Rest (list_query op)) s = (res, s') →
  error res = None →
  run env (list_program op) s =
    mkRun (Returned (js_or (data res) (VArr []))) s' [Called (Rest (list_query op)) res].
Proof.
  intros Hop Hcall Herr.
  destruct op; try done; simpl in *; rewrite Hcall; simpl; by rewrite Herr.
Qed.

(** getAppointments, for any environment: each element it returns is the
    fetched row at the same position with the patient's name flattened
    onto it. *)
Lemma getAppointments_maps_answer {S : Type} (env : Env S) (s s' : S) (res : Response)
    (out : list Value) :
  remote env (Rest (list_query ListAppointments)) s = (res, s') →
  error res = None →
  outcome (run env getAppointments s) = Returned (VArr out) →
  Forall2 flattened (match data res with VArr l => l | _ => [] end) out.
Proof.
  intros Hcall Herr. unfold getAppointments.
  change (Rest _) with (Rest (list_query ListAppointments)).
  run_step. rewrite Hcall. run_step. rewrite Herr.
  destruct (data res) as [| |b|n|str|l|o]; cbn [optional_map mbind Prog_bind];
    run_step; try discriminate; try (intros [= <-]; constructor).
  destruct (for_each_with_patient_name l) as [(ys & -> & Hys)|(e & ->)]; run_step.
  - by intros [= <-].
  - discriminate.
Qed.

Lemma listed_plain (op : ListOp) (w : World) (rows : list Row) :
  op ≠ ListAppointments → listed op w <$> rows = rows.
Proof.
  intros Hop. rewrite (list_fmap_ext (listed op w) id); [apply list_fmap_id|].
  intros i r _. by destruct op.
Qed.

Lemma selected_plain (op : ListOp) (w : World) (rows0 : list Row) :
  op ≠ ListAppointments →
  List.filter (matches (Supabase.filters (list_query op))) rows0
  = List.filter (selected op w) rows0.
Proof.
  intros Hop. apply List.filter_ext. intros r.
  destruct op; try done; cbn [list_query Supabase.filters Supabase.order Supabase.eq
    Supabase.select Supabase.start Supabase.from app matches forallb fst snd selected belongs
    list_owner]; by rewrite andb_true_r.
Qed.

(** C6: each list operation asks for its rows in the declared order
    (getPatients by created_at descending, getMedicalHistory by date
    descending, getPatientFiles by upload_date descending,
    getAppointments by date ascending), getMedicalHistory and
    getPatientFiles asking only for the rows of the given patient, and
    what it returns on success is the answer to that request (for
    getAppointments: the answer's rows, each with the name flattened).
    Against the reference backend a list call whose request succeeds
    returns the selected rows of its collection, each once, in the
    declared order, and for the two filtered listings every returned row
    has the given patient_id. *)
Theorem list_results_ordered_and_filtered (op : ListOp) :
  (∀ (S : Type) (env : Env S) (s : S),
     ∃ res rest,
       trace (run env (list_program op) s) = Called (Rest (list_query op)) res :: rest)
  ∧ Supabase.ordering (list_query op) = Some (declared_order op)
  ∧ Supabase.filters (list_query op) =
      match list_owner op with
      | Some p => [("patient_id", p)]
      | None => []
      end
  ∧ (∀ (S : Type) (env : Env S) (s s' : S) (res : Response),
     remote env (Rest (list_query op)) s = (res, s') →
     error res = None →
     (op ≠ ListAppointments →
      run env (list_program op) s =
        mkRun (Returned (js_or (data res) (VArr []))) s' [Called (Rest (list_query op)) res])
     ∧ (∀ out, op = ListAppointments →
          outcome (run env (list_program op) s) = Returned (VArr out) →
          Forall2 flattened (match data res with VArr l => l | _ => [] end) out))
  ∧ (∀ w : World,
     succeeded (trace (run Reference.env (list_program op) w)) (Rest (list_query op)) →
     ∃ rows0 kept,
       tables w !! Supabase.table (list_query op) = Some rows0
       ∧ kept ≡ₚ List.filter (selected op w) rows0
       ∧ outcome (run Reference.env (list_program op) w) =
           Returned (VArr (VObj <$> (listed op w <$> kept)))
       ∧ StronglySorted (list_order op) (listed op w <$> kept)
       ∧ (∀ p, list_owner op = Some p →
            Forall (λ r, r !! "patient_id" = Some (VStr p)) (listed op w <$> kept))).
Proof.
  split; [|split; [by destruct op|split; [by destruct op|split]]].
  { intros S env s.
    destruct op; unfold list_program, getPatients, getAppointments, getMedicalHistory,
      getPatientFiles;
      match goal with
      | |- context [Rest ?q] => change (Rest q) with (Rest (list_query ListPatients))
      | |- context [Rest ?q] => change (Rest q) with (Rest (list_query ListAppointments))
      | |- context [Rest ?q] =>
          change (Rest q) with (Rest (list_query (ListMedicalHistory patientId)))
      | |- context [Rest ?q] =>
          change (Rest q) with (Rest (list_query (ListPatientFiles patientId)))
      end;
      run_step;
      match goal with
      | |- context [remote ?env ?r ?s] => destruct (remote env r s) as [res s']
      end;
      run_step; by eexists _, _. }
  { intros S env s s' res Hcall Herr. split.
    - intros Hop. by apply plain_list_run.
    - intros out -> Hout. by eapply getAppointments_maps_answer. }
  intros w Hok.
  assert (Hplain : op ≠ ListAppointments →
            ∃ rows0 kept,
              tables w !! Supabase.table (list_query op) = Some rows0
              ∧ kept ≡ₚ List.filter (selected op w) rows0
              ∧ outcome (run Reference.env (list_program op) w) =
                  Returned (VArr (VObj <$> (listed op w <$> kept)))
              ∧ StronglySorted (list_order op) (listed op w <$> kept)
              ∧ (∀ p, list_owner op = Some p →
                   Forall (λ r, r !! "patient_id" = Some (VStr p)) (listed op w <$> kept))).
  { intros Hop. destruct (plain_list_reference op w Hop Hok) as (rows0 & Ht & Hout).
    exists rows0,
      (sort_rows (Supabase.ordering (list_query op))
         (List.filter (matches (Supabase.filters (list_query op))) rows0)).
    rewrite (listed_plain op w _ Hop).
    split; [exact Ht|]. split; [by rewrite sort_rows_perm, (selected_plain op w rows0 Hop)|].
    split; [exact Hout|]. split.
    - destruct op; try done;
        cbn [list_query sort_rows Supabase.ordering Supabase.order list_order
             declared_order fst snd];
        apply StronglySorted_merge_sort; apply _.
    - intros p Hp. apply Forall_forall. intros r Hr.
      rewrite sort_rows_perm in Hr. apply list_elem_of_In, List.filter_In in Hr.
      destruct Hr as [_ Hr].
      destruct op; try discriminate; injection Hp as ->; by apply matches_one in Hr. }
  destruct op; try (apply Hplain; discriminate).
  destruct (getAppointments_reference w Hok) as (w' & rows0 & Hw' & Ht & Hout).
  exists rows0,
    (merge_sort (row_le "date")
       (List.filter (λ r, matches [] r && visible w' appointment_columns r) rows0)).
  split; [exact Ht|]. split.
  { rewrite merge_sort_Permutation.
    assert (Hext : List.filter (λ r, matches [] r && visible w' appointment_columns r) rows0
                   = List.filter (selected ListAppointments w) rows0).
    { apply List.filter_ext. intros r.
      cbn [matches forallb visible appointment_columns andb selected]. unfold has_patient.
      by rewrite andb_true_r, (referenced_tables w w' _ _ Hw'). }
    by rewrite Hext. }
  split.
  { cbn [list_program]. rewrite Hout. unfold joined_appointments. do 3 f_equal.
    rewrite <- list_fmap_compose. apply list_fmap_ext. intros i r _.
    cbn [compose listed]. unfold listed_appointment. by rewrite (project_tables w w' _ _ Hw'). }
  split; [|discriminate].
  apply (StronglySorted_fmap _ (row_le "date")); [|apply StronglySorted_merge_sort; apply _].
  intros x y Hxy.
  cbn [list_order declared_order fst snd listed].
  unfold listed_appointment, row_le, column, named_row, appointment_columns in *.
  rewrite !project_join. by rewrite !lookup_insert_ne.
Qed.

Lemma list_results_ordered_and_filtered_witness :
  run Reference.env getPatients (Fixtures.clinic []) =
    mkRun (Returned (VArr [VObj Fixtures.luis; VObj Fixtures.ana])) (Fixtures.clinic [])
      [Called (Rest (list_query ListPatients))
         (ok (VArr [VObj Fixtures.luis; VObj Fixtures.ana]))]
  ∧ (∃ kept,
       kept ≡ₚ [Fixtures.ana; Fixtures.luis]
       ∧ StronglySorted (row_ge "created_at") (listed ListPatients (Fixtures.clinic []) <$> kept)
       ∧ outcome (run Reference.env getPatients (Fixtures.clinic [])) =
           Returned (VArr (VObj <$> (listed ListPatients (Fixtures.clinic []) <$> kept))))
  ∧ (∃ kept,
       kept ≡ₚ [Fixtures.history_row "h1" "p1" "2024-02-01";
                Fixtures.history_row "h3" "p1" "2024-02-07"]
       ∧ StronglySorted (row_ge "date")
           (listed (ListMedicalHistory "p1") (Fixtures.clinic []) <$> kept)
       ∧ Forall (λ r : Row, r !! "patient_id" = Some (VStr "p1"))
           (listed (ListMedicalHistory "p1") (Fixtures.clinic []) <$> kept)
       ∧ outcome (run Reference.env (getMedicalHistory "p1") (Fixtures.clinic [])) =
           Returned (VArr (VObj <$> (listed (ListMedicalHistory "p1") (Fixtures.clinic [])
                                       <$> kept))))
  ∧ (∃ kept,
       kept ≡ₚ [Fixtures.file_row "f1" "p1" "p1/1-rx.png" "2024-04-01T00:00:00.000Z";
                Fixtures.file_row "f2" "p1" "p1/2-rx.png" "2024-04-02T00:00:00.000Z"]
       ∧ StronglySorted (row_ge "upload_date")
           (listed (ListPatientFiles "p1") (Fixtures.clinic []) <$> kept)
       ∧ outcome (run Reference.env (getPatientFiles "p1") (Fixtures.clinic [])) =
           Returned (VArr (VObj <$> (listed (ListPatientFiles "p1") (Fixtures.clinic [])
                                       <$> kept))))
  ∧ (∃ kept,
       kept ≡ₚ [Fixtures.appointment "a1" "p1" "2024-05-03";
                Fixtures.appointment "a2" "p2" "2024-05-01"]
       ∧ StronglySorted (row_le "date")
           (listed ListAppointments Fixtures.clinic_with_stray <$> kept)
       ∧ outcome (run Reference.env getAppointments Fixtures.clinic_with_stray) =
           Returned (VArr (VObj <$> (listed ListAppointments Fixtures.clinic_with_stray
                                       <$> kept)))).
Proof.
  split; [|split; [|split; [|split]]].
  - destruct (list_results_ordered_and_filtered ListPatients) as (_ & _ & _ & Hany & _).
    destruct (Hany World Reference.env (Fixtures.clinic []) (Fixtures.clinic [])
                (ok (VArr [VObj Fixtures.luis; VObj Fixtures.ana])) eq_refl eq_refl)
      as [Hrun _].
    exact (eq_trans (Hrun ltac:(discriminate)) eq_refl).
  - destruct (list_results_ordered_and_filtered ListPatients) as (_ & _ & _ & _ & Href).
    destruct (Href (Fixtures.clinic []))
      as (rows0 & kept & Ht & Hperm & Hout & Hsorted & _).
    { eexists. split; [left; reflexivity|reflexivity]. }
    assert (Hrows0 : Some rows0 = Some [Fixtures.ana; Fixtures.luis])
      by (rewrite <- Ht; reflexivity).
    injection Hrows0 as ->.
    exists kept. split; [exact Hperm|]. split; [exact Hsorted|exact Hout].
  - destruct (list_results_ordered_and_filtered (ListMedicalHistory "p1"))
      as (_ & _ & _ & _ & Href).
    destruct (Href (Fixtures.clinic []))
      as (rows0 & kept & Ht & Hperm & Hout & Hsorted & Howner).
    { eexists. split; [left; reflexivity|reflexivity]. }
    assert (Hrows0 : Some rows0 =
              Some [Fixtures.history_row "h1" "p1" "2024-02-01";
                    Fixtures.history_row "h2" "p2" "2024-02-03";
                    Fixtures.history_row "h3" "p1" "2024-02-07"])
      by (rewrite <- Ht; reflexivity).
    injection Hrows0 as ->.
    exists kept. split; [exact Hperm|]. split; [exact Hsorted|].
    split; [exact (Howner "p1" eq_refl)|exact Hout].
  - destruct (list_results_ordered_and_filtered (ListPatientFiles "p1"))
      as (_ & _ & _ & _ & Href).
    destruct (Href (Fixtures.clinic []))
      as (rows0 & kept & Ht & Hperm & Hout & Hsorted & _).
    { eexists. split; [left; reflexivity|reflexivity]. }
    assert (Hrows0 : Some rows0 =
              Some [Fixtures.file_row "f1" "p1" "p1/1-rx.png" "2024-04-01T00:00:00.000Z";
                    Fixtures.file_row "f2" "p1" "p1/2-rx.png" "2024-04-02T00:00:00.000Z"])
      by (rewrite <- Ht; reflexivity).
    injection Hrows0 as ->.
    exists kept. split; [exact Hperm|]. split; [exact Hsorted|exact Hout].
  - destruct (list_results_ordered_and_filtered ListAppointments) as (_ & _ & _ & _ & Href).
    destruct (Href Fixtures.clinic_with_stray)
      as (rows0 & kept & Ht & Hperm & Hout & Hsorted & _).
    { eexists. split; [left; reflexivity|reflexivity]. }
    assert (Hrows0 : Some rows0 =
              Some [Fixtures.appointment "a1" "p1" "2024-05-03";
                    Fixtures.appointment "a4" "p9" "2024-05-02";
                    Fixtures.appointment "a2" "p2" "2024-05-01"])
      by (rewrite <- Ht; reflexivity).
    injection Hrows0 as ->.
    exists kept. split; [exact Hperm|]. split; [exact Hsorted|exact Hout].
Defined.
